(** * Idempotent-mutation gateway and toggle/counter engine

    A shallow embedding of
    - [apps/core/idempotency.py]  (request fingerprint, record store, the
      [idempotent] decorator and [IdempotencyMiddleware]),
    - [apps/posts/services.py]    ([PostService.toggle_like]),
    - [apps/follows/services.py]  ([FollowService.toggle_follow]),
    together with the parts of Python, [json] and [hashlib] these functions
    call, and the properties of the gateway and of the toggles. *)

From Stdlib Require Import ZArith NArith List String Ascii Lia.
From stdpp Require Import base decidable option list strings gmap fin_sets.
Import ListNotations.

#[local] Set Warnings "-register-all,-clear-no-such-hyp".

Local Open Scope string_scope.
Local Open Scope Z_scope.

(** ** Python values

    Strings are sequences of code points; the model covers the code points
    below 256 (one [ascii] each).  Floats are left out of [py_value]. *)

Module Py.

Inductive py_value : Type :=
| PyNone
| PyBool (b : bool)
| PyInt (n : Z)
| PyStr (s : string)
| PyList (l : list py_value)
| PyDict (d : list (string * py_value)).

(** Exceptions the modelled code raises or lets through. *)
Inductive exn : Type :=
| ValueError (msg : string)
| TypeError (msg : string)
| KeyError (key : string)
| AttributeError (msg : string)
| JSONDecodeError (msg : string)
| UnicodeDecodeError (msg : string)
| IntegrityError (constraint : string)
| DataError (msg : string)
| DoesNotExist (model : string)
| OtherError (name : string).

(** The result of a call: a value, or a raised exception. *)
Inductive outcome (A : Type) : Type :=
| Return (a : A)
| Raise (e : exn).
Arguments Return {A} a.
Arguments Raise {A} e.

(** [bool(v)] *)
Definition truthy (v : py_value) : bool :=
  match v with
  | PyNone => false
  | PyBool b => b
  | PyInt n => negb (n =? 0)
  | PyStr s => negb (String.eqb s "")
  | PyList l => match l with [] => false | _ => true end
  | PyDict d => match d with [] => false | _ => true end
  end.

(** Truthiness of a [str | None]. *)
Definition truthy_str (o : option string) : bool :=
  match o with
  | None => false
  | Some s => negb (String.eqb s "")
  end.

(** [d[k]] for a string key. *)
Fixpoint assoc (k : string) (d : list (string * py_value)) : option py_value :=
  match d with
  | [] => None
  | (k', v) :: d' => if String.eqb k' k then Some v else assoc k d'
  end.

Definition getitem (v : py_value) (k : string) : outcome py_value :=
  match v with
  | PyDict d =>
      match assoc k d with
      | Some x => Return x
      | None => Raise (KeyError k)
      end
  | PyStr _ => Raise (TypeError "string indices must be integers")
  | _ => Raise (TypeError "object is not subscriptable")
  end.

(** *** Text of numbers *)

Definition hex_digit (n : N) : ascii :=
  nth (N.to_nat n) (list_ascii_of_string "0123456789abcdef") "0"%char.

(** [n] written with exactly [digits] lowercase hexadecimal digits. *)
Fixpoint hex_fixed (digits : nat) (n : N) : string :=
  match digits with
  | O => ""
  | S d => hex_fixed d (N.div n 16) ++ String (hex_digit (N.modulo n 16)) ""
  end.

Definition dec_digit (n : N) : ascii :=
  nth (N.to_nat n) (list_ascii_of_string "0123456789") "0"%char.

Fixpoint dec_pos (fuel : nat) (n : N) (acc : string) : string :=
  match fuel with
  | O => acc
  | S f =>
      let acc' := String (dec_digit (N.modulo n 10)) acc in
      if (N.div n 10 =? 0)%N then acc' else dec_pos f (N.div n 10) acc'
  end.

(** [str(n)] for an [int]. *)
Definition str_int (n : Z) : string :=
  let m := Z.to_N (Z.abs n) in
  let digits := dec_pos (S (N.to_nat (N.log2 m))) m "" in
  if n <? 0 then "-" ++ digits else digits.

(** *** [repr] of a string *)

(** The double quote, code point 34. *)
Definition dquote : ascii := "034"%char.

Fixpoint contains (c : ascii) (s : string) : bool :=
  match s with
  | EmptyString => false
  | String c' s' => if Ascii.eqb c c' then true else contains c s'
  end.

(** The quote [repr] picks: a double quote only when the text has a single
    quote and no double quote. *)
Definition repr_quote (s : string) : ascii :=
  if contains "'"%char s && negb (contains dquote s) then dquote else "'"%char.

(** [str.isprintable] below 256. *)
Definition printable (c : N) : bool :=
  ((32 <=? c) && (c <? 127) || (161 <=? c) && negb (c =? 173))%N.

Definition repr_char (quote c : ascii) : string :=
  let n := N_of_ascii c in
  if Ascii.eqb c quote || Ascii.eqb c "\"%char then String "\"%char (String c "")
  else if (n =? 9)%N then "\t"
  else if (n =? 10)%N then "\n"
  else if (n =? 13)%N then "\r"
  else if printable n then String c ""
  else "\x" ++ hex_fixed 2 n.

Fixpoint repr_chars (quote : ascii) (s : string) : string :=
  match s with
  | EmptyString => ""
  | String c s' => repr_char quote c ++ repr_chars quote s'
  end.

Definition repr_str (s : string) : string :=
  let q := repr_quote s in
  String q (repr_chars q s ++ String q "").

(** *** [repr] and [str] of a value *)

Fixpoint join (sep : string) (l : list string) : string :=
  match l with
  | [] => ""
  | [x] => x
  | x :: l' => x ++ sep ++ join sep l'
  end.

Fixpoint repr (v : py_value) : string :=
  match v with
  | PyNone => "None"
  | PyBool true => "True"
  | PyBool false => "False"
  | PyInt n => str_int n
  | PyStr s => repr_str s
  | PyList l => "[" ++ join ", " (map repr l) ++ "]"
  | PyDict d =>
      "{" ++ join ", " (map (fun kv => repr_str (fst kv) ++ ": " ++ repr (snd kv)) d) ++ "}"
  end.

(** [str(v)]: the text itself for a string, [repr] for everything else. *)
Definition str (v : py_value) : string :=
  match v with
  | PyStr s => s
  | _ => repr v
  end.


End Py.

(** ** [json.dumps] of a dictionary of strings *)

Module Json.

(** One character of a JSON string with [ensure_ascii=True] (the default):
    everything outside [' '..'~'] is escaped. *)
Definition escape_char (c : ascii) : string :=
  let n := N_of_ascii c in
  if (n =? 34)%N then String "\"%char (String Py.dquote "")
  else if (n =? 92)%N then "\\"
  else if (n =? 10)%N then "\n"
  else if (n =? 13)%N then "\r"
  else if (n =? 9)%N then "\t"
  else if (n =? 8)%N then "\b"
  else if (n =? 12)%N then "\f"
  else if ((32 <=? n) && (n <=? 126))%N then String c ""
  else "\u" ++ Py.hex_fixed 4 n.

Fixpoint escape (s : string) : string :=
  match s with
  | EmptyString => ""
  | String c s' => escape_char c ++ escape s'
  end.

Definition encode_str (s : string) : string :=
  String Py.dquote (escape s ++ String Py.dquote "").

(** [sorted(d.items())] on the keys, by insertion. *)
Fixpoint insert_item (kv : string * string) (l : list (string * string))
  : list (string * string) :=
  match l with
  | [] => [kv]
  | kv' :: l' =>
      if String.leb (fst kv) (fst kv') then kv :: l else kv' :: insert_item kv l'
  end.

Definition sort_items (l : list (string * string)) : list (string * string) :=
  fold_right insert_item [] l.

Definition encode_item (kv : string * string) : string :=
  encode_str (fst kv) ++ ": " ++ encode_str (snd kv).

(** [json.dumps(d, sort_keys=True)] with the default separators. *)
Definition dumps_sorted (d : list (string * string)) : string :=
  "{" ++ Py.join ", " (map encode_item (sort_items d)) ++ "}".

End Json.

(** ** [hashlib.sha256(...).hexdigest()]

    SHA-256 on 32-bit words kept in [Z], every addition reduced modulo
    [2^32]. *)

Module Sha256.

Definition wrap (x : Z) : Z := x mod 4294967296.

Definition add32 (x y : Z) : Z := wrap (x + y).

Definition rotr (n x : Z) : Z :=
  Z.lor (Z.shiftr x n) (wrap (Z.shiftl x (32 - n))).

Definition not32 (x : Z) : Z := Z.lxor x 4294967295.

Definition ch (x y z : Z) : Z := Z.lxor (Z.land x y) (Z.land (not32 x) z).

Definition maj (x y z : Z) : Z :=
  Z.lxor (Z.lxor (Z.land x y) (Z.land x z)) (Z.land y z).

Definition big_sigma0 (x : Z) : Z := Z.lxor (Z.lxor (rotr 2 x) (rotr 13 x)) (rotr 22 x).
Definition big_sigma1 (x : Z) : Z := Z.lxor (Z.lxor (rotr 6 x) (rotr 11 x)) (rotr 25 x).
Definition small_sigma0 (x : Z) : Z := Z.lxor (Z.lxor (rotr 7 x) (rotr 18 x)) (Z.shiftr x 3).
Definition small_sigma1 (x : Z) : Z := Z.lxor (Z.lxor (rotr 17 x) (rotr 19 x)) (Z.shiftr x 10).

(** Round constants: the fractional parts of the cube roots of the first
    sixty-four primes, thirty-two bits each. *)
Definition round_constants : list Z :=
  [ 1116352408; 1899447441; 3049323471; 3921009573; 961987163; 1508970993;
    2453635748; 2870763221; 3624381080; 310598401; 607225278; 1426881987;
    1925078388; 2162078206; 2614888103; 3248222580; 3835390401; 4022224774;
    264347078; 604807628; 770255983; 1249150122; 1555081692; 1996064986;
    2554220882; 2821834349; 2952996808; 3210313671; 3336571891; 3584528711;
    113926993; 338241895; 666307205; 773529912; 1294757372; 1396182291;
    1695183700; 1986661051; 2177026350; 2456956037; 2730485921; 2820302411;
    3259730800; 3345764771; 3516065817; 3600352804; 4094571909; 275423344;
    430227734; 506948616; 659060556; 883997877; 958139571; 1322822218;
    1537002063; 1747873779; 1955562222; 2024104815; 2227730452; 2361852424;
    2428436474; 2756734187; 3204031479; 3329325298 ].

(** The eight chaining words. *)
Record state : Type := State {
  ha : Z; hb : Z; hc : Z; hd : Z; he : Z; hf : Z; hg : Z; hh : Z
}.

Definition initial_state : state :=
  State 1779033703 3144134277 1013904242 2773480762
        1359893119 2600822924 528734635 1541459225.

(** Padding: a [0x80] byte, zero bytes up to 56 modulo 64, then the bit
    length on eight bytes, most significant first. *)
Definition be_bytes (count : nat) (x : Z) : list Z :=
  map (fun i => Z.land (Z.shiftr x (8 * Z.of_nat i)) 255) (rev (seq 0 count)).

Definition pad (msg : list Z) : list Z :=
  let len := Z.of_nat (length msg) in
  let zeros := Z.to_nat ((55 - len) mod 64) in
  msg ++ [128] ++ repeat 0 zeros ++ be_bytes 8 (8 * len).

(** Bytes to big-endian 32-bit words. *)
Fixpoint to_words (bytes : list Z) : list Z :=
  match bytes with
  | b0 :: b1 :: b2 :: b3 :: rest =>
      (b0 * 16777216 + b1 * 65536 + b2 * 256 + b3) :: to_words rest
  | _ => []
  end.

(** The message schedule, most recent word first: [recent] holds
    [W(t-1), W(t-2), ...]. *)
Fixpoint extend_schedule (steps : nat) (recent : list Z) : list Z :=
  match steps with
  | O => recent
  | S n =>
      let w :=
        add32 (add32 (add32 (small_sigma1 (nth 1 recent 0)) (nth 6 recent 0))
                     (small_sigma0 (nth 14 recent 0)))
              (nth 15 recent 0) in
      extend_schedule n (w :: recent)
  end.

Definition schedule (block : list Z) : list Z :=
  rev (extend_schedule 48 (rev block)).

Definition round (s : state) (kw : Z * Z) : state :=
  let t1 :=
    add32 (add32 (add32 (add32 (hh s) (big_sigma1 (he s))) (ch (he s) (hf s) (hg s)))
                 (fst kw))
          (snd kw) in
  let t2 := add32 (big_sigma0 (ha s)) (maj (ha s) (hb s) (hc s)) in
  State (add32 t1 t2) (ha s) (hb s) (hc s) (add32 (hd s) t1) (he s) (hf s) (hg s).

Definition compress (s : state) (block : list Z) : state :=
  let r := fold_left round (combine round_constants (schedule block)) s in
  State (add32 (ha s) (ha r)) (add32 (hb s) (hb r)) (add32 (hc s) (hc r))
        (add32 (hd s) (hd r)) (add32 (he s) (he r)) (add32 (hf s) (hf r))
        (add32 (hg s) (hg r)) (add32 (hh s) (hh r)).

(** Blocks of sixteen words, one per unit of fuel. *)
Fixpoint process (fuel : nat) (words : list Z) (s : state) : state :=
  match fuel with
  | O => s
  | S n =>
      match words with
      | [] => s
      | _ => process n (skipn 16 words) (compress s (firstn 16 words))
      end
  end.

Definition digest_state (msg : list Z) : state :=
  let words := to_words (pad msg) in
  process (length words) words initial_state.

Definition hex32 (x : Z) : string := Py.hex_fixed 8 (Z.to_N x).

Definition hexdigest (msg : list Z) : string :=
  let s := digest_state msg in
  hex32 (ha s) ++ hex32 (hb s) ++ hex32 (hc s) ++ hex32 (hd s) ++
  hex32 (he s) ++ hex32 (hf s) ++ hex32 (hg s) ++ hex32 (hh s).

End Sha256.

(** [s.encode()]: UTF-8, two bytes for the code points from 128 to 255. *)
Definition utf8_char (c : ascii) : list Z :=
  let n := Z.of_N (N_of_ascii c) in
  if n <? 128 then [n]
  else [Z.lor 192 (Z.shiftr n 6); Z.lor 128 (Z.land n 63)].

Fixpoint encode (s : string) : list Z :=
  match s with
  | EmptyString => []
  | String c s' => utf8_char c ++ encode s'
  end.

(** ** [apps/core/idempotency.py] *)

Module Idempotency.
Import Py.

(** Cache TTL for idempotency keys (24 hours). *)
Definition IDEMPOTENCY_TTL : Z := 86400.

(** Header name for the idempotency key. *)
Definition IDEMPOTENCY_HEADER : string := "HTTP_X_IDEMPOTENCY_KEY".
Definition IDEMPOTENCY_HEADER_NAME : string := "X-Idempotency-Key".

Definition HTTP_409_CONFLICT : Z := 409.

(** [request.user]: the anonymous user, or a user row with its UUID. *)
Inductive User : Type :=
| AnonymousUser
| AuthenticatedUser (id : N).

Definition is_authenticated (u : User) : bool :=
  match u with
  | AnonymousUser => false
  | AuthenticatedUser _ => true
  end.

(** [str(uuid)]: thirty-two hexadecimal digits in groups of 8-4-4-4-12. *)
Definition uuid_str (id : N) : string :=
  let h := hex_fixed 32 id in
  substring 0 8 h ++ "-" ++ substring 8 4 h ++ "-" ++ substring 12 4 h ++ "-" ++
  substring 16 4 h ++ "-" ++ substring 20 12 h.

(** [str(user.id)]; the anonymous user's [id] is [None]. *)
Definition user_id_str (u : User) : string :=
  match u with
  | AnonymousUser => "None"
  | AuthenticatedUser id => uuid_str id
  end.

(** The parts of a request the gateway reads, and [META] with every header
    and server variable. *)
Record Request : Type := mkRequest {
  method : string;
  path : string;
  data : py_value;
  user : User;
  META : gmap string string
}.

Record Response : Type := mkResponse {
  resp_data : py_value;
  status_code : Z;
  headers : gmap string string
}.

(** [Response(data, status=status)] *)
Definition new_response (d : py_value) (status : Z) : Response :=
  mkResponse d status ∅.

(** [response[name] = value] *)
Definition set_header (name value : string) (r : Response) : Response :=
  mkResponse (resp_data r) (status_code r) (<[name := value]> (headers r)).

(** What this module keeps in the cache: the dictionary
    [{"data": response_data, "status": status_code}] of a stored response,
    and the text of a fingerprint.  The other entries of the shared cache
    (under [user:], [post:], [feed:], ...) are never read here. *)
Inductive cached : Type :=
| CachedResponse (response_data : py_value) (status_code : Z)
| CachedStr (s : string).

(** The cache: every key with its value and the timeout it was set with.
    Expiry is the backend's; a lookup here is one inside the timeout. *)
Abbreviation Cache := (gmap string (cached * Z)).

(** [cache.set(key, value, timeout)] *)
Definition cache_set (key : string) (value : cached) (timeout : Z) (c : Cache) : Cache :=
  <[key := (value, timeout)]> c.

(** [cache.get(key)]; Python's [None] for a key that is not there. *)
Definition cache_get (key : string) (c : Cache) : option cached :=
  fst <$> c !! key.

(** [bool(v)] of what [cache.get] gave: [None] and the empty text are
    false, a dictionary with its two keys is true. *)
Definition truthy_opt (v : option cached) : bool :=
  match v with
  | None => false
  | Some (CachedResponse _ _) => true
  | Some (CachedStr s) => negb (String.eqb s "")
  end.

(** [v != s] for a text [s]: only an equal text is equal to it. *)
Definition ne_str (v : option cached) (s : string) : bool :=
  match v with
  | Some (CachedStr t) => negb (String.eqb t s)
  | _ => true
  end.

(** What a view can read and change: the cache and the database. *)
Record World (DB : Type) : Type := mkWorld {
  cache : Cache;
  db : DB
}.
Arguments mkWorld {DB} cache db.
Arguments cache {DB} w.
Arguments db {DB} w.

Definition with_cache {DB : Type} (c : Cache) (w : World DB) : World DB :=
  mkWorld c (db w).

(** A view action: it returns a response or raises, and leaves a world. *)
Definition Handler (DB : Type) : Type :=
  Request -> World DB -> outcome Response * World DB.

(** Extract idempotency key from request headers. *)
Definition get_idempotency_key (request : Request) : option string :=
  META request !! IDEMPOTENCY_HEADER.

(** Generate a fingerprint of the request to detect conflicting keys. *)
Definition generate_request_fingerprint (request : Request) : string :=
  let data :=
    [ ("method", method request);
      ("path", path request);
      ("body", str (data request));
      ("user", if is_authenticated (user request)
               then user_id_str (user request)
               else "anon") ] in
  let content := Json.dumps_sorted data in
  Sha256.hexdigest (encode content).

(** Generate cache key for storing idempotent response. *)
Definition get_cache_key (idempotency_key : string) : string :=
  "idempotency:" ++ idempotency_key.

(** Generate cache key for storing request fingerprint. *)
Definition get_fingerprint_key (idempotency_key : string) : string :=
  "idempotency:fp:" ++ idempotency_key.

(** Store response for idempotent retrieval. *)
Definition store_idempotent_response
    (idempotency_key fingerprint : string) (response_data : py_value)
    (status_code : Z) (c : Cache) : Cache :=
  let cache_key := get_cache_key idempotency_key in
  let fingerprint_key := get_fingerprint_key idempotency_key in
  let c1 :=
    cache_set cache_key (CachedResponse response_data status_code) IDEMPOTENCY_TTL c in
  cache_set fingerprint_key (CachedStr fingerprint) IDEMPOTENCY_TTL c1.

(** Retrieve stored idempotent response. *)
Definition get_idempotent_response (idempotency_key : string) (c : Cache) : option cached :=
  let cache_key := get_cache_key idempotency_key in
  cache_get cache_key c.

(** Retrieve stored request fingerprint. *)
Definition get_stored_fingerprint (idempotency_key : string) (c : Cache) : option cached :=
  let fingerprint_key := get_fingerprint_key idempotency_key in
  cache_get fingerprint_key c.

(** The body of the 409 answer. *)
Definition conflict_response : Response :=
  new_response
    (PyDict
       [("error",
         PyDict
           [("code", PyStr "IDEMPOTENCY_CONFLICT");
            ("message", PyStr "Idempotency key already used with different request.")])])
    HTTP_409_CONFLICT.

(** [Response(stored_response["data"], status=stored_response["status"])]
    with the replay header set; a text, or [None], raises at the
    subscript. *)
Definition replay_response (stored_response : option cached) : outcome Response :=
  match stored_response with
  | Some (CachedResponse d status) =>
      Return (set_header "X-Idempotent-Replayed" "true" (new_response d status))
  | Some (CachedStr _) => Raise (TypeError "string indices must be integers")
  | None => Raise (TypeError "'NoneType' object is not subscriptable")
  end.

(** The [wrapper] the decorator [idempotent] puts around a view action. *)
Definition wrapper {DB : Type} (func : Handler DB) (request : Request) (w : World DB)
  : outcome Response * World DB :=
  match get_idempotency_key request with
  | None => func request w
  | Some idempotency_key =>
      (* If no idempotency key, process normally *)
      if negb (truthy (PyStr idempotency_key)) then func request w
      else
        (* Check for existing response *)
        let stored_response := get_idempotent_response idempotency_key (cache w) in
        if truthy_opt stored_response then
          (* Verify fingerprint matches (same key, different request = error) *)
          let stored_fingerprint := get_stored_fingerprint idempotency_key (cache w) in
          let current_fingerprint := generate_request_fingerprint request in
          if truthy_opt stored_fingerprint && ne_str stored_fingerprint current_fingerprint
          then (Return conflict_response, w)
          else
            (* Return cached response *)
            (replay_response stored_response, w)
        else
          (* Execute the actual function *)
          match func request w with
          | (Return response, w') =>
              (* Only cache successful responses (2xx) *)
              if (200 <=? status_code response) && (status_code response <? 300) then
                let fingerprint := generate_request_fingerprint request in
                (Return response,
                 with_cache
                   (store_idempotent_response idempotency_key fingerprint
                      (resp_data response) (status_code response) (cache w'))
                   w')
              else (Return response, w')
          | (Raise e, w') => (Raise e, w')
          end
  end.

(** *** [IdempotencyMiddleware]

    The middleware sees rendered responses.  [json.loads] and Django's
    [JsonResponse] are taken as given. *)

Record HttpResponse : Type := mkHttpResponse {
  content : option string;     (* [None]: a response with no [content] *)
  http_status_code : Z;
  http_headers : gmap string string
}.

Definition http_set_header (name value : string) (r : HttpResponse) : HttpResponse :=
  mkHttpResponse (content r) (http_status_code r) (<[name := value]> (http_headers r)).

Definition IDEMPOTENT_METHODS : list string := ["POST"; "PUT"; "PATCH"].

(** [except (json.JSONDecodeError, AttributeError)]: what the middleware
    catches around its store. *)
Definition caught (e : exn) : bool :=
  match e with
  | JSONDecodeError _ | AttributeError _ => true
  | _ => false
  end.

Section Middleware.

Context {DB : Type}.

(** [json.loads(content)]: the value, or the exception it raises, which is
    [JSONDecodeError] for a text that is not JSON and another one otherwise
    ([UnicodeDecodeError] for content that is not UTF-8, ...). *)
Variable json_loads : string -> outcome py_value.

(** [JsonResponse(data, status=status)] *)
Variable JsonResponse : py_value -> Z -> outcome HttpResponse.

(** [IdempotencyMiddleware.__call__] around [get_response]. *)
Definition middleware_call
    (get_response : Request -> World DB -> outcome HttpResponse * World DB)
    (request : Request) (w : World DB) : outcome HttpResponse * World DB :=
  (* Only check idempotency for mutating methods *)
  if negb (existsb (String.eqb (method request)) IDEMPOTENT_METHODS)
  then get_response request w
  else
    match META request !! IDEMPOTENCY_HEADER with
    | None => get_response request w
    | Some idempotency_key =>
        (* If no key provided, process normally *)
        if negb (truthy (PyStr idempotency_key)) then get_response request w
        else
          (* Check for cached response *)
          let stored := get_idempotent_response idempotency_key (cache w) in
          if truthy_opt stored then
            match stored with
            | Some (CachedResponse d st) =>
                match JsonResponse d st with
                | Raise e => (Raise e, w)
                | Return response =>
                    (Return (http_set_header "X-Idempotent-Replayed" "true" response), w)
                end
            | Some (CachedStr _) => (Raise (TypeError "string indices must be integers"), w)
            | None => (Raise (TypeError "'NoneType' object is not subscriptable"), w)
            end
          else
            (* Process request normally *)
            match get_response request w with
            | (Raise e, w') => (Raise e, w')
            | (Return response, w') =>
                (* Cache successful responses *)
                if (200 <=? http_status_code response) && (http_status_code response <? 300)
                then
                  match content response with
                  | None => (Return response, w')          (* AttributeError: skip *)
                  | Some text =>
                      match json_loads text with
                      | Return data =>
                          (Return response,
                           with_cache
                             (store_idempotent_response idempotency_key
                                ""  (* No fingerprint check in middleware mode *)
                                data (http_status_code response) (cache w'))
                             w')
                      | Raise e =>
                          (* Skip caching non-JSON responses *)
                          if caught e then (Return response, w') else (Raise e, w')
                      end
                  end
                else (Return response, w')
            end
    end.

End Middleware.

End Idempotency.

(** ** The tables behind the toggles

    [Like] and [Follow] rows are identified by their pair of foreign keys:
    the unique constraints [unique_user_post_like] and [unique_follow] allow
    one row per pair, so each table is the set of its pairs.  Users and
    posts are named by their primary keys. *)

Module Db.
Import Py.

(** A row of [posts]; [likes_count] and [comments_count] are
    [PositiveIntegerField]s. *)
Record Post : Type := mkPost {
  post_user : N;
  content : string;
  likes_count : N;
  comments_count : N
}.

Record Database : Type := mkDatabase {
  posts : gmap N Post;
  likes : gset (N * N);      (* (user_id, post_id) *)
  follows : gset (N * N)     (* (follower_id, following_id) *)
}.

Definition set_posts (f : gmap N Post -> gmap N Post) (d : Database) : Database :=
  mkDatabase (f (posts d)) (likes d) (follows d).

Definition set_likes (f : gset (N * N) -> gset (N * N)) (d : Database) : Database :=
  mkDatabase (posts d) (f (likes d)) (follows d).

Definition set_follows (f : gset (N * N) -> gset (N * N)) (d : Database) : Database :=
  mkDatabase (posts d) (likes d) (f (follows d)).

(** Code that reads and writes the database and may raise. *)
Definition M (A : Type) : Type := Database -> outcome A * Database.

Definition ret {A : Type} (a : A) : M A := fun d => (Return a, d).

Definition raise {A : Type} (e : exn) : M A := fun d => (Raise e, d).

Definition bind {A B : Type} (m : M A) (k : A -> M B) : M B :=
  fun d =>
    match m d with
    | (Return a, d') => k a d'
    | (Raise e, d') => (Raise e, d')
    end.

Declare Scope db_scope.
Delimit Scope db_scope with db.
Bind Scope db_scope with M.

Notation "x <- m ;; k" := (bind m (fun x => k))
  (at level 20, m at level 99, k at level 200, only parsing) : db_scope.
Notation "m ;; k" := (bind m (fun _ => k))
  (at level 100, k at level 200, right associativity, only parsing) : db_scope.

(** [try: body  except IntegrityError: handler] *)
Definition except_integrity_error {A : Type} (body handler : M A) : M A :=
  fun d =>
    match body d with
    | (Raise (IntegrityError _), d') => handler d'
    | r => r
    end.

(** [@transaction.atomic]: an exception leaving the block rolls the
    database back. *)
Definition atomic {A : Type} (body : M A) : M A :=
  fun d =>
    match body d with
    | (Return a, d') => (Return a, d')
    | (Raise e, _) => (Raise e, d)
    end.

(** [Like.objects.get_or_create(user=user, post=post)]: the row found, or
    the row made; made is [True] in the second component. *)
Definition like_get_or_create (user post : N) : M ((N * N) * bool) :=
  fun d =>
    if decide ((user, post) ∈ likes d) then (Return ((user, post), false), d)
    else (Return ((user, post), true), set_likes (fun l => {[(user, post)]} ∪ l) d).

(** [like.delete()] *)
Definition like_delete (like : N * N) : M unit :=
  fun d => (Return tt, set_likes (fun l => l ∖ {[like]}) d).

(** The largest value of a [PositiveIntegerField]: the column is a 32-bit
    [integer] of PostgreSQL. *)
Definition POSITIVE_INTEGER_MAX : N := 2147483647.

(** [Post.objects.filter(pk=pk).update(likes_count=F("likes_count") + 1)]:
    a sum past the column's range is refused with [integer out of range]. *)
Definition increment_likes_count (pk : N) : M unit :=
  fun d =>
    match posts d !! pk with
    | None => (Return tt, d)
    | Some p =>
        if (POSITIVE_INTEGER_MAX <=? likes_count p)%N
        then (Raise (DataError "integer out of range"), d)
        else
          let p' := mkPost (post_user p) (content p) (likes_count p + 1) (comments_count p) in
          (Return tt, set_posts (fun ps => <[pk := p']> ps) d)
    end.

(** [Post.objects.filter(pk=pk).update(likes_count=F("likes_count") - 1)]:
    the column's check [likes_count >= 0] refuses to go below zero. *)
Definition decrement_likes_count (pk : N) : M unit :=
  fun d =>
    match posts d !! pk with
    | None => (Return tt, d)
    | Some p =>
        if (likes_count p =? 0)%N
        then (Raise (IntegrityError "posts_likes_count_check"), d)
        else
          let p' := mkPost (post_user p) (content p) (likes_count p - 1) (comments_count p) in
          (Return tt, set_posts (fun ps => <[pk := p']> ps) d)
    end.

(** [post.refresh_from_db()] followed by reading [post.likes_count]. *)
Definition refreshed_likes_count (pk : N) : M N :=
  fun d =>
    match posts d !! pk with
    | None => (Raise (DoesNotExist "Post"), d)
    | Some p => (Return (likes_count p), d)
    end.

(** [Follow.objects.create(follower=follower, following=following)] under
    the constraints [no_self_follow] and [unique_follow]. *)
Definition follow_create (follower following : N) : M unit :=
  fun d =>
    if (follower =? following)%N then (Raise (IntegrityError "no_self_follow"), d)
    else if decide ((follower, following) ∈ follows d)
    then (Raise (IntegrityError "unique_follow"), d)
    else (Return tt, set_follows (fun f => {[(follower, following)]} ∪ f) d).

(** [Follow.objects.filter(follower=follower, following=following).delete()] *)
Definition follow_filter_delete (follower following : N) : M unit :=
  fun d => (Return tt, set_follows (fun f => f ∖ {[(follower, following)]}) d).

(** The rows of a table of pairs whose second key is [x]:
    [filter(following=x)], [filter(post=x)]. *)
Abbreviation referencing x t := (filter (fun r : N * N => r.2 = x) t).

(** [user.followers_count]: [self.followers.count()], computed on read. *)
Definition followers_count (user : N) : M N :=
  fun d => (Return (N.of_nat (size (referencing user (follows d)))), d).

(** The number of [Like] rows that reference a post. *)
Definition like_rows (post : N) (d : Database) : N :=
  N.of_nat (size (referencing post (likes d))).

End Db.

(** ** [apps/posts/services.py] *)

Module PostService.
Import Py Db.
Local Open Scope db_scope.

(** Toggle like on a post. Returns (is_liked, new_likes_count). *)
Definition toggle_like (user post : N) : M (bool * N) :=
  atomic (
    r <- like_get_or_create user post ;;
    let '(like, created) := r in
    if created : bool then
      increment_likes_count post ;;
      n <- refreshed_likes_count post ;;
      ret (true, n)
    else
      like_delete like ;;
      decrement_likes_count post ;;
      n <- refreshed_likes_count post ;;
      ret (false, n)).

(** A run of [toggle_like] calls, one after the other, each given as
    (user, post); the tables after the run. *)
Fixpoint toggle_likes (calls : list (N * N)) (d : Database) : Database :=
  match calls with
  | [] => d
  | (user, post) :: rest => toggle_likes rest (snd (toggle_like user post d))
  end.

(** The denormalized counter of a post equals the number of [Like] rows
    that reference the post. *)
Definition counter_consistent (d : Database) (post : N) : Prop :=
  exists row, posts d !! post = Some row /\ likes_count row = like_rows post d.

End PostService.

(** ** [apps/follows/services.py] *)

Module FollowService.
Import Py Db.
Local Open Scope db_scope.

(** Toggle follow status between two users.
    Returns (is_following, followers_count); raises [ValueError] if trying
    to follow self. *)
Definition toggle_follow (follower following : N) : M (bool * N) :=
  if (follower =? following)%N then raise (ValueError "Cannot follow yourself")
  else
    except_integrity_error
      ( (* Try to create follow *)
        follow_create follower following ;;
        n <- followers_count following ;;
        ret (true, n))
      ( (* Already following, so unfollow *)
        follow_filter_delete follower following ;;
        n <- followers_count following ;;
        ret (false, n)).

End FollowService.

(** ** Sample requests, views and tables *)

Module Examples.
Import Py Idempotency Db.

Definition alice : User := AuthenticatedUser 2080198374579512478928253972136282715.

(** A [POST /api/v1/posts/] with a JSON body [{"content": text}]. *)
Definition post_request (key : option string) (text : string) : Request :=
  mkRequest "POST" "/api/v1/posts/" (PyDict [("content", PyStr text)]) alice
    (match key with
     | Some k => {[ IDEMPOTENCY_HEADER := k ]}
     | None => ∅
     end).

(** A create view over a table of post texts: blank content is answered
    with 400 and nothing written, anything else with 201 and a new row. *)
Definition create_post : Handler (list string) :=
  fun request w =>
    match getitem (data request) "content" with
    | Return (PyStr text) =>
        if String.eqb text EmptyString
        then (Return (new_response
                        (PyDict [("content", PyList [PyStr "This field may not be blank."])])
                        400), w)
        else (Return (new_response
                        (PyDict [("id", PyInt (Z.of_nat (List.length (db w))));
                                 ("content", PyStr text)])
                        201),
              mkWorld (cache w) (db w ++ [text])%list)
    | _ =>
        (Return (new_response
                   (PyDict [("content", PyList [PyStr "This field is required."])])
                   400), w)
    end.

Definition empty_world : World (list string) := mkWorld ∅ [].

(** The world after a first [POST] with key [k1] and content [hello]. *)
Definition world_after_hello : World (list string) :=
  snd (wrapper create_post (post_request (Some "k1") "hello") empty_world).

(** The world after the middleware's store for key [k1]: a record with an
    empty fingerprint. *)
Definition world_after_middleware : World (list string) :=
  mkWorld
    (store_idempotent_response "k1" "" (PyDict [("id", PyInt 0)]) 201 ∅)
    ["hello"].

(** One post with no like, and no follow. *)
Definition one_post : Database :=
  mkDatabase {[ 7%N := mkPost 1 "hi" 0 0 ]} ∅ ∅.

(** One post whose counter is at the top of its column, with no like by
    user 1. *)
Definition full_post : Database :=
  mkDatabase {[ 7%N := mkPost 1 "hi" 2147483647 0 ]} ∅ ∅.



End Examples.

(** ** Reading text *)

Module Text.

(** A lowercase hexadecimal digit. *)
Definition is_hex_digit (c : ascii) : bool :=
  let n := N_of_ascii c in
  ((48 <=? n) && (n <=? 57) || (97 <=? n) && (n <=? 102))%N.

Fixpoint all_chars (p : ascii -> bool) (s : string) : bool :=
  match s with
  | EmptyString => true
  | String c s' => p c && all_chars p s'
  end.

End Text.


(** ** The text that is hashed, and reading a JSON string back *)

Module FingerprintText.
Import Py Idempotency.

(** [str(request.user.id) if request.user.is_authenticated else 'anon']. *)
Definition user_text (request : Request) : string :=
  if is_authenticated (user request)
  then user_id_str (user request)
  else "anon".

(** The local variable [content] of [generate_request_fingerprint]: the
    dictionary of the four parts, dumped with sorted keys. *)
Definition content (request : Request) : string :=
  Json.dumps_sorted
    [ ("method", method request);
      ("path", path request);
      ("body", str (data request));
      ("user", user_text request) ].

(** The value of a lowercase hexadecimal digit. *)
Definition hex_value (c : ascii) : N :=
  let n := N_of_ascii c in
  (if (97 <=? n) then n - 87 else n - 48)%N.

(** Reads one character of an escaped JSON string and returns it with the
    rest of the text: the inverse of [Json.escape_char]. *)
Definition unescape_char (s : string) : option (ascii * string) :=
  match s with
  | EmptyString => None
  | String c rest =>
      if (N_of_ascii c =? 92)%N then
        match rest with
        | EmptyString => None
        | String e rest' =>
            let n := N_of_ascii e in
            if (n =? 34)%N then Some (dquote, rest')
            else if (n =? 92)%N then Some (ascii_of_N 92, rest')
            else if (n =? 110)%N then Some (ascii_of_N 10, rest')
            else if (n =? 114)%N then Some (ascii_of_N 13, rest')
            else if (n =? 116)%N then Some (ascii_of_N 9, rest')
            else if (n =? 98)%N then Some (ascii_of_N 8, rest')
            else if (n =? 102)%N then Some (ascii_of_N 12, rest')
            else if (n =? 117)%N then
              match rest' with
              | String h1 (String h2 (String h3 (String h4 rest''))) =>
                  Some (ascii_of_N
                          (((hex_value h1 * 16 + hex_value h2) * 16
                            + hex_value h3) * 16 + hex_value h4)%N,
                        rest'')
              | _ => None
              end
            else None
        end
      else Some (c, rest)
  end.

End FingerprintText.
(** ** [IdempotencyMiddleware]: the methods it handles *)

Module MiddlewareNames.
Import Idempotency.

(** [request.method in self.IDEMPOTENT_METHODS] *)
Definition mutating (request : Request) : bool :=
  existsb (String.eqb (method request)) IDEMPOTENT_METHODS.

End MiddlewareNames.

(** ** [apps/follows/services.py] and [apps/posts/services.py]: the queries

    A query is read at the moment of the call; its rows are given as the
    set of their key pairs, as in the tables. *)

Module Queries.
Import Py Db.

(** [FollowService.is_following]:
    [Follow.objects.filter(follower=follower, following=following).exists()] *)
Definition is_following (follower following : N) (d : Database) : bool :=
  bool_decide ((follower, following) ∈ follows d).

(** [FollowService.get_followers]: [Follow.objects.filter(following=user)] *)
Definition get_followers (user : N) (d : Database) : gset (N * N) :=
  referencing user (follows d).

(** [FollowService.get_following]: [Follow.objects.filter(follower=user)] *)
Definition get_following (user : N) (d : Database) : gset (N * N) :=
  filter (fun r : N * N => r.1 = user) (follows d).

(** [User.following_count]: [self.following.count()] *)
Definition following_count (user : N) (d : Database) : N :=
  N.of_nat (size (get_following user d)).

(** [FollowService.get_mutual_followers], over the primary keys [users] of
    the users table: the users whose id is a follower id of both. *)
Definition get_mutual_followers (users : gset N) (user1 user2 : N) (d : Database) : gset N :=
  let followers1 : gset N := set_map fst (referencing user1 (follows d)) in
  let followers2 : gset N := set_map fst (referencing user2 (follows d)) in
  let mutual_ids := followers1 ∩ followers2 in
  filter (fun id => id ∈ mutual_ids) users.

(** [PostService.get_user_liked_post_ids]:
    [set(Like.objects.filter(user=user).values_list("post_id", flat=True))] *)
Definition get_user_liked_post_ids (user : N) (d : Database) : gset N :=
  set_map snd (filter (fun r : N * N => r.1 = user) (likes d)).

End Queries.

(** ** [apps/follows/views.py]: the toggle action

    The action runs for an authenticated caller ([IsAuthenticated] is
    checked before it); [usernames] is the users table read by username. *)

Module FollowViewSet.
Import Py Db Idempotency.

(** [get_object_or_404(User, username=username)] *)
Definition get_user_or_404 (usernames : gmap string N) (username : string) : M N :=
  match usernames !! username with
  | Some id => ret id
  | None => raise (OtherError "Http404")
  end.

(** [FollowViewSet.toggle] *)
Definition toggle (usernames : gmap string N) (request_user : N) (username : string)
  : M Response :=
  fun d =>
    match get_user_or_404 usernames username d with
    | (Raise e, d') => (Raise e, d')
    | (Return user_to_follow, d') =>
        match FollowService.toggle_follow request_user user_to_follow d' with
        | (Return (is_following, followers_count), d'') =>
            (Return (new_response
                       (PyDict [("following", PyBool is_following);
                                ("followers_count", PyInt (Z.of_N followers_count))])
                       200),
             d'')
        | (Raise (ValueError msg), d'') =>
            (Return (new_response (PyDict [("error", PyStr msg)]) 400), d'')
        | (Raise e, d'') => (Raise e, d'')
        end
    end.

End FollowViewSet.

(** ** [apps/core/exceptions.py] *)

Module Exceptions.
Import Py Idempotency.

(** The dictionary of [_get_error_code], in the order it is written. *)
Definition error_codes : list (Z * string) :=
  [ (400, "BAD_REQUEST");
    (401, "UNAUTHORIZED");
    (403, "FORBIDDEN");
    (404, "NOT_FOUND");
    (405, "METHOD_NOT_ALLOWED");
    (409, "CONFLICT");
    (422, "VALIDATION_ERROR");
    (429, "RATE_LIMITED");
    (500, "INTERNAL_ERROR") ].

(** [d.get(key, default)] for integer keys. *)
Fixpoint get_code (key : Z) (d : list (Z * string)) (default : string) : string :=
  match d with
  | [] => default
  | (k, v) :: d' => if k =? key then v else get_code key d' default
  end.

(** Map HTTP status codes to error codes. *)
Definition _get_error_code (status_code : Z) : string :=
  get_code status_code error_codes "UNKNOWN_ERROR".

(** The loop of [_get_error_message] over [data.items()]: the first value
    that is a non-empty list or a text decides; [None] when the loop ends
    without returning. *)
Fixpoint first_field_message (items : list (string * py_value)) : option string :=
  match items with
  | [] => None
  | (key, value) :: rest =>
      match value with
      | PyList (x :: _) => Some (key ++ ": " ++ str x)
      | PyStr s => Some (key ++ ": " ++ s)
      | _ => first_field_message rest
      end
  end.

(** Whether a value ends the loop: a non-empty list, or a text. *)
Definition field_decides (value : py_value) : bool :=
  match value with
  | PyList (_ :: _) => true
  | PyStr _ => true
  | _ => false
  end.

(** Extract a human-readable message from error data. *)
Definition _get_error_message (data : py_value) : string :=
  match data with
  | PyStr s => s
  | PyDict d =>
      match assoc "detail" d with
      | Some detail => str detail
      | None =>
          match first_field_message d with
          | Some message => message
          | None => "An error occurred"
          end
      end
  | PyList (x :: _) => str x
  | _ => "An error occurred"
  end.

(** Custom exception handler: [exception_handler] is the framework's
    default handler, called first. *)
Definition custom_exception_handler {E C : Type}
    (exception_handler : E -> C -> option Response) (exc : E) (context : C)
  : option Response :=
  match exception_handler exc context with
  | None => None
  | Some response =>
      let error_response :=
        PyDict
          [("error",
            PyDict
              [("code", PyStr (_get_error_code (status_code response)));
               ("message", PyStr (_get_error_message (resp_data response)));
               ("details",
                match resp_data response with
                | PyDict _ => resp_data response
                | _ => PyDict [("detail", resp_data response)]
                end)])] in
      Some (mkResponse error_response (status_code response) (headers response))
  end.

End Exceptions.

(** ** Methods of [str] *)

Module Str.

(** [c.isspace()] below 256. *)
Definition is_space (c : ascii) : bool :=
  let n := N_of_ascii c in
  ((9 <=? n) && (n <=? 13) || (28 <=? n) && (n <=? 32) || (n =? 133) || (n =? 160))%N.

(** [c.lower()] below 256: [A-Z], and the capital letters from 192 to 222
    but for the multiplication sign. *)
Definition lower_char (c : ascii) : ascii :=
  let n := N_of_ascii c in
  if ((65 <=? n) && (n <=? 90) || (192 <=? n) && (n <=? 222) && negb (n =? 215))%N
  then ascii_of_N (n + 32)
  else c.

Fixpoint lower (s : string) : string :=
  match s with
  | EmptyString => EmptyString
  | String c s' => String (lower_char c) (lower s')
  end.

(** Drop the leading characters that are in the set. *)
Fixpoint lstrip (p : ascii -> bool) (s : string) : string :=
  match s with
  | EmptyString => EmptyString
  | String c s' => if p c then lstrip p s' else s
  end.

(** Drop the trailing characters that are in the set. *)
Fixpoint rstrip (p : ascii -> bool) (s : string) : string :=
  match s with
  | EmptyString => EmptyString
  | String c s' =>
      match rstrip p s' with
      | EmptyString => if p c then EmptyString else String c EmptyString
      | t => String c t
      end
  end.

Definition strip_chars (p : ascii -> bool) (s : string) : string :=
  rstrip p (lstrip p s).

(** [s.strip()] *)
Definition strip (s : string) : string := strip_chars is_space s.

(** [s.strip("#")] *)
Definition strip_hash (s : string) : string := strip_chars (Ascii.eqb "#"%char) s.

(** The first and the last character, when there is one. *)
Definition first_char (s : string) : option ascii :=
  match s with
  | EmptyString => None
  | String c _ => Some c
  end.

Fixpoint last_char (s : string) : option ascii :=
  match s with
  | EmptyString => None
  | String c EmptyString => Some c
  | String _ s' => last_char s'
  end.


(** No character of the set at either end. *)
Definition stripped (p : ascii -> bool) (s : string) : Prop :=
  (forall c, first_char s = Some c -> p c = false)
  /\ (forall c, last_char s = Some c -> p c = false).

End Str.

(** ** [apps/posts/serializers.py]: validation of the content *)

Module PostCreateSerializer.
Import Str.

(** The result of a field validator: the value to keep, or the message of
    the [ValidationError] raised. *)
Inductive validation : Type :=
| Valid (value : string)
| Invalid (message : string).

(** Validate content is not empty. *)
Definition validate_content (value : string) : validation :=
  if String.eqb value "" || String.eqb (strip value) ""
  then Invalid "Post content cannot be empty."
  else Valid (strip value).

End PostCreateSerializer.

(** ** [apps/posts/services.py]: creating and updating a post

    A post is taken here with the columns these two functions read and
    write: its author, content, metadata and [updated_at] (as the text
    [isoformat] gives, when set). *)

Module PostEdits.
Import Py Str.

Record PostRow : Type := mkPostRow {
  row_user : N;
  row_content : string;
  row_metadata : py_value;
  row_updated_at : option string
}.

(** [d[k] = v] on a dictionary: the value is replaced where the key is,
    and a new key goes to the end. *)
Fixpoint dict_set (k : string) (v : py_value) (d : list (string * py_value))
  : list (string * py_value) :=
  match d with
  | [] => [(k, v)]
  | (k', v') :: d' =>
      if String.eqb k' k then (k', v) :: d' else (k', v') :: dict_set k v d'
  end.

(** [l[-n:]] for a positive [n]. *)
Definition last_n {A : Type} (n : nat) (l : list A) : list A :=
  skipn (List.length l - n)%nat l.

(** Metadata that [update_post] can work on: nothing (a false value), or
    a dictionary whose [edit_history], when there is one, is a list. *)
Definition well_formed_metadata (metadata : py_value) : bool :=
  if truthy metadata then
    match metadata with
    | PyDict items =>
        match assoc "edit_history" items with
        | None | Some (PyList _) => true
        | Some _ => false
        end
    | _ => false
    end
  else true.

(** [PostService.create_post]: the row handed to [Post.objects.create];
    [hashtags] is [None] or a list. *)
Definition create_post (user : N) (content : string) (hashtags : option (list string))
  : PostRow :=
  let metadata :=
    match hashtags with
    | Some (h :: rest) =>
        [("hashtags", PyList (map (fun h => PyStr (strip_hash (lower h))) (h :: rest)))]
    | _ => []
    end in
  mkPostRow user (strip content) (PyDict metadata) None.

(** [PostService.update_post]: the post as saved, from the post as loaded;
    [now] is the [updated_at] that [save] sets.  An exception leaves the
    stored post as it was. *)
Definition update_post (now : string) (post : PostRow) (content : string)
  : outcome PostRow :=
  if negb (String.eqb content (row_content post)) then
    (* metadata = post.metadata or {} *)
    let metadata := if truthy (row_metadata post) then row_metadata post else PyDict [] in
    match metadata with
    | PyDict items =>
        (* metadata["edited"] = True *)
        let items := dict_set "edited" (PyBool true) items in
        (* Track edit history (keep last 5) *)
        match default (PyList []) (assoc "edit_history" items) with
        | PyList edit_history =>
            let entry :=
              PyDict
                [("content", PyStr (row_content post));
                 ("edited_at", match row_updated_at post with
                               | Some t => PyStr t
                               | None => PyNone
                               end)] in
            let edit_history := (edit_history ++ [entry])%list in
            let items := dict_set "edit_history" (PyList (last_n 5 edit_history)) items in
            Return (mkPostRow (row_user post) (strip content) (PyDict items) (Some now))
        | _ => Raise (AttributeError "object has no attribute 'append'")
        end
    | _ => Raise (TypeError "object does not support item assignment")
    end
  else Return post.

End PostEdits.


(** ** More sample data *)

Module Samples.
Import Py Idempotency Db PostEdits Examples.

(** A view that raises and writes nothing. *)
Definition broken_view : Handler (list string) :=
  fun _ w => (Raise (OtherError "boom"), w).

(** The first [POST] again, with the [str] of its body sent as a JSON
    text. *)
Definition text_request : Request :=
  mkRequest "POST" "/api/v1/posts/" (PyStr "{'content': 'hello'}") alice
    {[ IDEMPOTENCY_HEADER := "k1" ]}.

(** A [GET] that carries a token. *)
Definition get_request : Request :=
  mkRequest "GET" "/api/v1/posts/" PyNone alice {[ IDEMPOTENCY_HEADER := "k1" ]}.

(** A parser that knows one document and refuses content that starts
    with a byte above 127 as not UTF-8; and the response built from a
    value. *)
Definition toy_json_loads (text : string) : outcome py_value :=
  if String.eqb text "[1]" then Return (PyList [PyInt 1])
  else
    match text with
    | String c _ =>
        if (128 <=? N_of_ascii c)%N
        then Raise (UnicodeDecodeError "invalid start byte")
        else Raise (JSONDecodeError "Expecting value")
    | EmptyString => Raise (JSONDecodeError "Expecting value")
    end.

Definition toy_JsonResponse (d : py_value) (st : Z) : outcome HttpResponse :=
  Return (mkHttpResponse (Some (str d)) st ∅).

(** An inner handler that adds a row and answers 201 with that document,
    and one that answers 201 with a page. *)
Definition toy_get_response
  : Request -> World (list string) -> outcome HttpResponse * World (list string) :=
  fun _ w => (Return (mkHttpResponse (Some "[1]") 201 ∅),
              mkWorld (cache w) (db w ++ ["x"])%list).

Definition page_get_response
  : Request -> World (list string) -> outcome HttpResponse * World (list string) :=
  fun _ w => (Return (mkHttpResponse (Some "<html>") 201 ∅),
              mkWorld (cache w) (db w ++ ["x"])%list).

(** An inner handler that adds a row and answers 201 with the one byte
    255. *)
Definition binary_get_response
  : Request -> World (list string) -> outcome HttpResponse * World (list string) :=
  fun _ w => (Return (mkHttpResponse (Some (String (ascii_of_N 255) "")) 201 ∅),
              mkWorld (cache w) (db w ++ ["x"])%list).

(** Post 7 with a like by user 2 and a counter that was never raised. *)
Definition stale_like : Database :=
  mkDatabase {[ 7%N := mkPost 1 "hi" 0 0 ]} {[ (2%N, 7%N) ]} ∅.

(** A post edited five times, with hashtags. *)
Definition busy_items : list (string * py_value) :=
  [ ("hashtags", PyList [PyStr "rocq"]);
    ("edited", PyBool true);
    ("edit_history",
     PyList (map (fun s => PyDict [("content", PyStr s); ("edited_at", PyNone)])
               ["v1"; "v2"; "v3"; "v4"; "v5"])) ].

Definition busy_post : PostRow :=
  mkPostRow 1 "v6" (PyDict busy_items) (Some "2024-01-01T00:00:00").

End Samples.
(** * Properties *)

(** ** Text *)

Section Text.
Import Py Idempotency.

(** The digest of [abc], as [hashlib] gives it. *)
Example sha256_abc :
  Sha256.hexdigest (encode "abc")
  = "ba7816bf8f01cfea414140de5dae2223b00361a396177a9cb410ff61f20015ad".
Proof. vm_compute. reflexivity. Qed.

(** [str] of a parsed JSON body. *)
Example str_of_body :
  str (PyDict [("a", PyList [PyInt 1; PyBool true; PyNone; PyDict [("b", PyStr "c")]]);
               ("n", PyInt (-3))])
  = "{'a': [1, True, None, {'b': 'c'}], 'n': -3}".
Proof. vm_compute. reflexivity. Qed.

Lemma length_append (s t : string) :
  String.length (s ++ t) = (String.length s + String.length t)%nat.
Proof.
  induction s as [| c s IH]; simpl; [reflexivity | now rewrite IH].
Qed.

Lemma hex_fixed_length (digits : nat) (n : N) :
  String.length (hex_fixed digits n) = digits.
Proof.
  revert n. induction digits as [| d IH]; intros n; simpl; [reflexivity |].
  rewrite length_append, IH. simpl. lia.
Qed.

(** A digest is sixty-four characters long. *)
Lemma hexdigest_length (msg : list Z) :
  String.length (Sha256.hexdigest msg) = 64%nat.
Proof.
  unfold Sha256.hexdigest, Sha256.hex32.
  repeat rewrite length_append. repeat rewrite hex_fixed_length. reflexivity.
Qed.

Lemma fingerprint_length (request : Request) :
  String.length (generate_request_fingerprint request) = 64%nat.
Proof. unfold generate_request_fingerprint. apply hexdigest_length. Qed.

(** So a fingerprint is never the empty text. *)
Lemma fingerprint_not_empty (request : Request) :
  generate_request_fingerprint request <> "".
Proof.
  intros E. pose proof (fingerprint_length request) as H. rewrite E in H. discriminate H.
Qed.

Lemma fingerprint_truthy (request : Request) :
  truthy_opt (Some (CachedStr (generate_request_fingerprint request))) = true.
Proof.
  cbn [truthy_opt]. apply negb_true_iff, String.eqb_neq, fingerprint_not_empty.
Qed.

(** The keys sort as body, method, path, user. *)
Lemma fingerprint_canonical (request : Request) :
  generate_request_fingerprint request =
  Sha256.hexdigest
    (encode
       (Json.dumps_sorted
          [ ("body", str (data request));
            ("method", method request);
            ("path", path request);
            ("user", if is_authenticated (user request)
                     then user_id_str (user request)
                     else "anon") ])).
Proof. reflexivity. Qed.

(** The response and the fingerprint of one token live under two keys. *)
Lemma cache_key_not_fingerprint_key (k : string) :
  get_cache_key k <> get_fingerprint_key k.
Proof.
  unfold get_cache_key, get_fingerprint_key. simpl. intros H.
  injection H as H. apply (f_equal String.length) in H. simpl in H. lia.
Qed.

End Text.

(** ** The record store *)

Section Store.
Import Py Idempotency.

Lemma cache_get_set_eq (k : string) (v : cached) (t : Z) (c : Cache) :
  cache_get k (cache_set k v t c) = Some v.
Proof. unfold cache_get, cache_set. now rewrite lookup_insert_eq. Qed.

Lemma cache_get_set_ne (k k' : string) (v : cached) (t : Z) (c : Cache) :
  k <> k' -> cache_get k' (cache_set k v t c) = cache_get k' c.
Proof. intros H. unfold cache_get, cache_set. now rewrite lookup_insert_ne. Qed.

(** After a store the response is found under the token. *)
Lemma stored_response_found (k fp : string) (d : py_value) (st : Z) (c : Cache) :
  get_idempotent_response k (store_idempotent_response k fp d st c)
  = Some (CachedResponse d st).
Proof.
  unfold get_idempotent_response, store_idempotent_response.
  rewrite cache_get_set_ne by (intros E; symmetry in E; revert E; apply cache_key_not_fingerprint_key).
  apply cache_get_set_eq.
Qed.

(** After a store the fingerprint is found under the token. *)
Lemma stored_fingerprint_found (k fp : string) (d : py_value) (st : Z) (c : Cache) :
  get_stored_fingerprint k (store_idempotent_response k fp d st c) = Some (CachedStr fp).
Proof.
  unfold get_stored_fingerprint, store_idempotent_response. apply cache_get_set_eq.
Qed.

(** Every record is written with the 24 hour timeout. *)
Lemma stored_with_ttl (k fp : string) (d : py_value) (st : Z) (c : Cache) :
  snd <$> store_idempotent_response k fp d st c !! get_cache_key k = Some 86400
  /\ snd <$> store_idempotent_response k fp d st c !! get_fingerprint_key k = Some 86400.
Proof.
  unfold store_idempotent_response, cache_set. split.
  - rewrite lookup_insert_ne by (intros E; symmetry in E; revert E; apply cache_key_not_fingerprint_key).
    now rewrite lookup_insert_eq.
  - now rewrite lookup_insert_eq.
Qed.

End Store.

(** ** The gateway, branch by branch *)

Section Gateway.
Import Py Idempotency.
Context {DB : Type}.
Implicit Types (func : Handler DB) (request : Request) (w : World DB).

Lemma key_truthy (key : string) : key <> "" -> negb (truthy (PyStr key)) = false.
Proof.
  intros H. unfold truthy. apply String.eqb_neq in H. now rewrite H.
Qed.

(** No key, or an empty one: the view runs as if undecorated. *)
Lemma wrapper_without_key func request w :
  truthy_str (get_idempotency_key request) = false ->
  wrapper func request w = func request w.
Proof.
  unfold wrapper, truthy_str. destruct (get_idempotency_key request) as [key |];
    [| reflexivity].
  intros H. unfold truthy. now rewrite H.
Qed.

(** A hit: the guard
    [stored_fingerprint and stored_fingerprint != current_fingerprint]
    chooses between the conflict and the replay; the view is not called. *)
Lemma wrapper_hit func request w key :
  get_idempotency_key request = Some key ->
  key <> "" ->
  truthy_opt (get_idempotent_response key (cache w)) = true ->
  wrapper func request w =
  if truthy_opt (get_stored_fingerprint key (cache w))
     && ne_str (get_stored_fingerprint key (cache w)) (generate_request_fingerprint request)
  then (Return conflict_response, w)
  else (replay_response (get_idempotent_response key (cache w)), w).
Proof.
  intros Hkey Hne Hstored. unfold wrapper. cbv zeta.
  now rewrite Hkey, (key_truthy key Hne), Hstored.
Qed.

(** A miss: the view runs, and a 2xx answer is stored afterwards. *)
Lemma wrapper_miss func request w key :
  get_idempotency_key request = Some key ->
  key <> "" ->
  truthy_opt (get_idempotent_response key (cache w)) = false ->
  wrapper func request w =
  match func request w with
  | (Return response, w') =>
      if (200 <=? status_code response) && (status_code response <? 300) then
        (Return response,
         with_cache
           (store_idempotent_response key (generate_request_fingerprint request)
              (resp_data response) (status_code response) (cache w'))
           w')
      else (Return response, w')
  | (Raise e, w') => (Raise e, w')
  end.
Proof.
  intros Hkey Hne Hstored. unfold wrapper. cbv zeta.
  now rewrite Hkey, (key_truthy key Hne), Hstored.
Qed.

(** An exception of the view passes through a miss and nothing is stored. *)
Lemma wrapper_miss_raise func request w key e w' :
  get_idempotency_key request = Some key ->
  key <> "" ->
  truthy_opt (get_idempotent_response key (cache w)) = false ->
  func request w = (Raise e, w') ->
  wrapper func request w = (Raise e, w').
Proof.
  intros Hkey Hne Hstored Hf. rewrite (wrapper_miss _ _ _ key) by assumption.
  now rewrite Hf.
Qed.

(** A first execution with a 2xx answer, then any request with the same
    key: the second call finds the record and the fingerprint of the first. *)
Lemma wrapper_miss_then_lookup func request w key response w' :
  get_idempotency_key request = Some key ->
  key <> "" ->
  truthy_opt (get_idempotent_response key (cache w)) = false ->
  func request w = (Return response, w') ->
  200 <= status_code response < 300 ->
  let w1 := snd (wrapper func request w) in
  fst (wrapper func request w) = Return response
  /\ get_idempotent_response key (cache w1)
     = Some (CachedResponse (resp_data response) (status_code response))
  /\ get_stored_fingerprint key (cache w1)
     = Some (CachedStr (generate_request_fingerprint request)).
Proof.
  intros Hkey Hne Hstored Hf [Hlo Hhi]. cbn zeta.
  rewrite (wrapper_miss _ _ _ key) by assumption. rewrite Hf.
  apply Z.leb_le in Hlo. apply Z.ltb_lt in Hhi. rewrite Hlo, Hhi. cbn [andb fst snd].
  unfold with_cache. cbn [cache].
  split; [reflexivity |]. split; [apply stored_response_found | apply stored_fingerprint_found].
Qed.

(** A first execution answered 2xx, then the same request again under
    the same key, through any view: the first answer is replayed and the
    second view is not run. *)
Lemma retry_replays_first_answer func (func' : Handler DB) request w key response w' :
  get_idempotency_key request = Some key ->
  key <> "" ->
  truthy_opt (get_idempotent_response key (cache w)) = false ->
  func request w = (Return response, w') ->
  200 <= status_code response < 300 ->
  let w1 := snd (wrapper func request w) in
  wrapper func' request w1
  = (Return (set_header "X-Idempotent-Replayed" "true"
               (new_response (resp_data response) (status_code response))),
     w1).
Proof.
  intros Hkey Hne Hmiss Hf Hstatus.
  destruct (wrapper_miss_then_lookup func request w key response w'
              Hkey Hne Hmiss Hf Hstatus) as [_ [Hresp Hfp]].
  cbv zeta in *.
  rewrite (wrapper_hit func' request _ key) by (try assumption; now rewrite Hresp).
  rewrite Hfp, Hresp. cbn [ne_str replay_response].
  now rewrite String.eqb_refl, andb_false_r.
Qed.

(** A first execution answered 2xx, then a request with another
    fingerprint under the same key: the conflict response, and the second
    view is not run. *)
Lemma retry_with_other_fingerprint_conflicts
    func (func' : Handler DB) request (request' : Request) w key response w' :
  get_idempotency_key request = Some key ->
  get_idempotency_key request' = Some key ->
  key <> "" ->
  truthy_opt (get_idempotent_response key (cache w)) = false ->
  func request w = (Return response, w') ->
  200 <= status_code response < 300 ->
  generate_request_fingerprint request' <> generate_request_fingerprint request ->
  let w1 := snd (wrapper func request w) in
  wrapper func' request' w1 = (Return conflict_response, w1).
Proof.
  intros Hkey Hkey' Hne Hmiss Hf Hstatus Hdiff.
  destruct (wrapper_miss_then_lookup func request w key response w'
              Hkey Hne Hmiss Hf Hstatus) as [_ [Hresp Hfp]].
  cbv zeta in *.
  rewrite (wrapper_hit func' request' _ key) by (try assumption; now rewrite Hresp).
  rewrite Hfp, fingerprint_truthy. cbn [ne_str andb].
  assert (String.eqb (generate_request_fingerprint request)
            (generate_request_fingerprint request') = false) as ->
    by (apply String.eqb_neq; congruence).
  reflexivity.
Qed.

(** The middleware on a miss with a 2xx JSON answer: the record it stores
    has the empty text as its fingerprint, which the decorator's guard
    takes as no fingerprint. *)
Lemma middleware_stores_empty_fingerprint
    (json_loads : string -> outcome py_value)
    (JsonResponse : py_value -> Z -> outcome HttpResponse)
    (get_response : Request -> World DB -> outcome HttpResponse * World DB)
    request w key (response : HttpResponse) (w' : World DB) (text : string) (d : py_value) :
  existsb (String.eqb (method request)) IDEMPOTENT_METHODS = true ->
  get_idempotency_key request = Some key ->
  key <> "" ->
  truthy_opt (get_idempotent_response key (cache w)) = false ->
  get_response request w = (Return response, w') ->
  200 <= http_status_code response < 300 ->
  content response = Some text ->
  json_loads text = Return d ->
  let w1 := snd (middleware_call json_loads JsonResponse get_response request w) in
  get_idempotent_response key (cache w1) = Some (CachedResponse d (http_status_code response))
  /\ get_stored_fingerprint key (cache w1) = Some (CachedStr "")
  /\ truthy_opt (get_stored_fingerprint key (cache w1)) = false.
Proof.
  intros Hmethod Hkey Hne Hmiss Hget [Hlo Hhi] Hcontent Hjson. cbv zeta.
  unfold middleware_call. unfold get_idempotency_key in Hkey.
  rewrite Hmethod, Hkey, (key_truthy key Hne), Hmiss, Hget. cbn [negb].
  apply Z.leb_le in Hlo. apply Z.ltb_lt in Hhi. rewrite Hlo, Hhi, Hcontent, Hjson.
  cbn [andb snd with_cache cache].
  rewrite stored_response_found, stored_fingerprint_found. now repeat split.
Qed.

End Gateway.

(** ** The gateway: claims *)

Section GatewayClaims.
Import Py Idempotency.
Context {DB : Type}.
Implicit Types (func : Handler DB) (request : Request) (w : World DB).

(** C1, as the code has it.  A request carries a token under which a
    record is stored, and the fingerprint stored with it is a text that is
    not empty and differs from the digest of this request.  Then the
    gateway answers with the conflict response, status 409 and the
    envelope [{error: {code: "IDEMPOTENCY_CONFLICT", message}}]; the
    answer and the world are the same whatever the wrapped view is, so the
    view is not run and neither the stored record nor anything else is
    written.  The condition that the stored text is not empty is the
    guard [stored_fingerprint and ...] of the code; without it the claim
    fails. *)
Theorem conflict_on_fingerprint_mismatch func request w key (stored : string) :
  get_idempotency_key request = Some key ->
  key <> "" ->
  truthy_opt (get_idempotent_response key (cache w)) = true ->
  get_stored_fingerprint key (cache w) = Some (CachedStr stored) ->
  stored <> "" ->
  generate_request_fingerprint request <> stored ->
  wrapper func request w = (Return conflict_response, w)
  /\ status_code conflict_response = 409
  /\ resp_data conflict_response
     = PyDict
         [("error",
           PyDict
             [("code", PyStr "IDEMPOTENCY_CONFLICT");
              ("message", PyStr "Idempotency key already used with different request.")])].
Proof.
  intros Hkey Hne Hstored Hfp Hfull Hdiff.
  split; [| split; reflexivity].
  rewrite (wrapper_hit func request w key) by assumption.
  rewrite Hfp. cbn [truthy_opt ne_str].
  assert (String.eqb stored "" = false) as -> by now apply String.eqb_neq.
  assert (String.eqb stored (generate_request_fingerprint request) = false) as ->
    by (apply String.eqb_neq; congruence).
  reflexivity.
Qed.

(** C2.  A request carries a token under which a record is stored, and
    the stored fingerprint is the digest of this request.  Then the
    gateway answers with the stored payload and the stored status, with
    the header [X-Idempotent-Replayed: true]; the answer and the world are
    the same whatever the wrapped view is, so the view is not run again. *)
Theorem replay_on_fingerprint_match func request w key (d : py_value) (st : Z) :
  get_idempotency_key request = Some key ->
  key <> "" ->
  get_idempotent_response key (cache w) = Some (CachedResponse d st) ->
  get_stored_fingerprint key (cache w)
    = Some (CachedStr (generate_request_fingerprint request)) ->
  exists response,
    wrapper func request w = (Return response, w)
    /\ resp_data response = d
    /\ status_code response = st
    /\ headers response !! "X-Idempotent-Replayed" = Some "true".
Proof.
  intros Hkey Hne Hstored Hfp.
  exists (set_header "X-Idempotent-Replayed" "true" (new_response d st)).
  split; [| split; [reflexivity | split; [reflexivity |]]].
  - rewrite (wrapper_hit func request w key) by (try assumption; now rewrite Hstored).
    rewrite Hfp, Hstored. cbn [ne_str replay_response].
    now rewrite String.eqb_refl, andb_false_r.
  - unfold set_header, new_response. cbn [headers]. apply lookup_insert_eq.
Qed.

(** C5.  A request carries a token under which no record is found, and
    the wrapped view returns a response whose status is not 2xx.  Then the
    gateway returns that response and leaves the world exactly as the view
    left it: nothing is stored. *)
Theorem non_2xx_not_stored func request w key (response : Response) (w' : World DB) :
  get_idempotency_key request = Some key ->
  key <> "" ->
  truthy_opt (get_idempotent_response key (cache w)) = false ->
  func request w = (Return response, w') ->
  ~ (200 <= status_code response < 300) ->
  wrapper func request w = (Return response, w').
Proof.
  intros Hkey Hne Hstored Hf Hstatus.
  rewrite (wrapper_miss func request w key) by assumption. rewrite Hf.
  destruct (Z.leb_spec 200 (status_code response)) as [Hlo | Hlo];
    destruct (Z.ltb_spec (status_code response) 300) as [Hhi | Hhi];
    cbn [andb]; try reflexivity.
  exfalso. apply Hstatus. lia.
Qed.

(** C9.  A request supplies no idempotency token (the header is absent, or
    empty).  Then the gateway is the wrapped view: the same response and
    the same world, so no record and no fingerprint is stored. *)
Theorem no_token_passthrough func request w :
  truthy_str (get_idempotency_key request) = false ->
  wrapper func request w = func request w.
Proof. apply wrapper_without_key. Qed.

(** C10.  A record is stored under a token, and no fingerprint can be
    read back for it: the fingerprint key is absent, or it holds the empty
    text the middleware stores.  Then every request with that token,
    whatever its body, is answered with the stored payload and status and
    the replay header, not with the conflict response. *)
Theorem replay_without_stored_fingerprint func request w key (d : py_value) (st : Z) :
  get_idempotency_key request = Some key ->
  key <> "" ->
  get_idempotent_response key (cache w) = Some (CachedResponse d st) ->
  truthy_opt (get_stored_fingerprint key (cache w)) = false ->
  wrapper func request w
  = (Return (set_header "X-Idempotent-Replayed" "true" (new_response d st)), w)
  /\ wrapper func request w <> (Return conflict_response, w).
Proof.
  intros Hkey Hne Hstored Hfp.
  assert (wrapper func request w
          = (Return (set_header "X-Idempotent-Replayed" "true" (new_response d st)), w))
    as Hreplay.
  { rewrite (wrapper_hit func request w key) by (try assumption; now rewrite Hstored).
    now rewrite Hfp, Hstored. }
  split; [exact Hreplay |].
  rewrite Hreplay. intros E.
  apply (f_equal
           (fun p : outcome Response * World DB =>
              match fst p with
              | Return r => headers r !! "X-Idempotent-Replayed"
              | Raise _ => None
              end)) in E.
  cbn [fst headers set_header new_response conflict_response] in E.
  rewrite lookup_insert_eq, lookup_empty in E. discriminate E.
Qed.

End GatewayClaims.

Section FingerprintClaims.
Import Py Idempotency FingerprintText.



End FingerprintClaims.

(** ** The gateway on the sample requests *)

Section GatewayExamples.
Import Py Idempotency FingerprintText Examples.

(** The first [POST] with key [k1] creates the post and is answered 201. *)
Example first_post_created :
  fst (wrapper create_post (post_request (Some "k1") "hello") empty_world)
  = Return (new_response (PyDict [("id", PyInt 0); ("content", PyStr "hello")]) 201)
  /\ db world_after_hello = ["hello"].
Proof. vm_compute. split; reflexivity. Qed.

(** The digest of the first request, as [hashlib] gives it. *)
Example hello_fingerprint :
  generate_request_fingerprint (post_request (Some "k1") "hello")
  = "fdc08aeb39dfaf55920bba5318f6f7c41b583d261d30953ab47e2df20f5c4d9d".
Proof. vm_compute. reflexivity. Qed.

Example different_fingerprint :
  generate_request_fingerprint (post_request (Some "k1") "different")
  = "5f9531ca9eb7a1320629b8579da49743862fc41397c8424dc0ae5b03e6452e47".
Proof. vm_compute. reflexivity. Qed.

(** C1 on the sample: key [k1] again with another body. *)
Lemma conflict_on_fingerprint_mismatch_witness :
  wrapper create_post (post_request (Some "k1") "different") world_after_hello
  = (Return conflict_response, world_after_hello)
  /\ status_code conflict_response = 409
  /\ resp_data conflict_response
     = PyDict
         [("error",
           PyDict
             [("code", PyStr "IDEMPOTENCY_CONFLICT");
              ("message", PyStr "Idempotency key already used with different request.")])].
Proof.
  apply (conflict_on_fingerprint_mismatch create_post
           (post_request (Some "k1") "different") world_after_hello "k1"
           "fdc08aeb39dfaf55920bba5318f6f7c41b583d261d30953ab47e2df20f5c4d9d").
  - reflexivity.
  - discriminate.
  - vm_compute. reflexivity.
  - vm_compute. reflexivity.
  - discriminate.
  - rewrite different_fingerprint. discriminate.
Defined.

(** C1 as the claim words it fails on the sample: under key [k1] a record
    is stored with the empty text as its fingerprint, the digest of the
    request differs from that text, and the gateway answers with the
    replay, status 201, not with the conflict. *)
Lemma conflict_on_fingerprint_mismatch_counterexample :
  get_idempotency_key (post_request (Some "k1") "different") = Some "k1"
  /\ get_idempotent_response "k1" (cache world_after_middleware)
     = Some (CachedResponse (PyDict [("id", PyInt 0)]) 201)
  /\ get_stored_fingerprint "k1" (cache world_after_middleware) = Some (CachedStr "")
  /\ String.eqb (generate_request_fingerprint (post_request (Some "k1") "different")) ""
     = false
  /\ wrapper create_post (post_request (Some "k1") "different") world_after_middleware
     = (Return (set_header "X-Idempotent-Replayed" "true"
                  (new_response (PyDict [("id", PyInt 0)]) 201)),
        world_after_middleware)
  /\ status_code (set_header "X-Idempotent-Replayed" "true"
                    (new_response (PyDict [("id", PyInt 0)]) 201)) = 201.
Proof.
  split; [reflexivity |]. split; [vm_compute; reflexivity |].
  split; [vm_compute; reflexivity |].
  split; [rewrite different_fingerprint; reflexivity |].
  split; [vm_compute; reflexivity | reflexivity].
Qed.

(** C2 on the sample: key [k1] again with the same body. *)
Lemma replay_on_fingerprint_match_witness :
  exists response,
    wrapper create_post (post_request (Some "k1") "hello") world_after_hello
    = (Return response, world_after_hello)
    /\ resp_data response = PyDict [("id", PyInt 0); ("content", PyStr "hello")]
    /\ status_code response = 201
    /\ headers response !! "X-Idempotent-Replayed" = Some "true".
Proof.
  apply (replay_on_fingerprint_match create_post (post_request (Some "k1") "hello")
           world_after_hello "k1").
  - reflexivity.
  - discriminate.
  - vm_compute. reflexivity.
  - vm_compute. reflexivity.
Defined.

(** C5 on the sample: a blank post under key [k2] is answered 400 and
    leaves the world as it was. *)
Lemma non_2xx_not_stored_witness :
  wrapper create_post (post_request (Some "k2") "") world_after_hello
  = (Return (new_response
               (PyDict [("content", PyList [PyStr "This field may not be blank."])]) 400),
     world_after_hello).
Proof.
  apply (non_2xx_not_stored create_post (post_request (Some "k2") "") world_after_hello "k2").
  - reflexivity.
  - discriminate.
  - vm_compute. reflexivity.
  - reflexivity.
  - cbn [status_code new_response]. lia.
Defined.

(** C9 on the sample: a [POST] with no key. *)
Lemma no_token_passthrough_witness :
  wrapper create_post (post_request None "hello") world_after_hello
  = create_post (post_request None "hello") world_after_hello.
Proof.
  apply (no_token_passthrough create_post (post_request None "hello") world_after_hello).
  reflexivity.
Defined.

(** C10 on the sample: the record of key [k1] was stored with the empty
    fingerprint, and a request with another body is replayed. *)
Lemma replay_without_stored_fingerprint_witness :
  wrapper create_post (post_request (Some "k1") "different") world_after_middleware
  = (Return (set_header "X-Idempotent-Replayed" "true"
               (new_response (PyDict [("id", PyInt 0)]) 201)),
     world_after_middleware)
  /\ wrapper create_post (post_request (Some "k1") "different") world_after_middleware
     <> (Return conflict_response, world_after_middleware).
Proof.
  apply (replay_without_stored_fingerprint create_post
           (post_request (Some "k1") "different") world_after_middleware "k1").
  - reflexivity.
  - discriminate.
  - vm_compute. reflexivity.
  - vm_compute. reflexivity.
Defined.



End GatewayExamples.

(** ** Counting rows *)

Section Rows.
Import Db.

Lemma rows_insert_same (a x : N) (t : gset (N * N)) :
  (a, x) ∉ t ->
  size (referencing x ({[(a, x)]} ∪ t)) = S (size (referencing x t)).
Proof.
  intros Hnot.
  assert (referencing x ({[(a, x)]} ∪ t) = {[(a, x)]} ∪ referencing x t) as ->
    by set_solver.
  rewrite size_union, size_singleton; [reflexivity | set_solver].
Qed.

Lemma rows_insert_other (a x y : N) (t : gset (N * N)) :
  x <> y ->
  referencing y ({[(a, x)]} ∪ t) = referencing y t.
Proof. intros Hne. set_solver. Qed.

Lemma rows_delete_same (a x : N) (t : gset (N * N)) :
  (a, x) ∈ t ->
  S (size (referencing x (t ∖ {[(a, x)]}))) = size (referencing x t).
Proof.
  intros Hin.
  assert (referencing x t = {[(a, x)]} ∪ referencing x (t ∖ {[(a, x)]})) as ->.
  { apply set_eq. intros r.
    rewrite elem_of_union, !elem_of_filter, elem_of_difference, !elem_of_singleton.
    destruct (decide (r = (a, x))) as [-> | Hr]; cbn; tauto. }
  rewrite size_union, size_singleton; [reflexivity | set_solver].
Qed.

Lemma rows_delete_other (a x y : N) (t : gset (N * N)) :
  x <> y ->
  referencing y (t ∖ {[(a, x)]}) = referencing y t.
Proof. intros Hne. set_solver. Qed.

Lemma insert_then_delete (r : N * N) (t : gset (N * N)) :
  r ∉ t -> ({[r]} ∪ t) ∖ {[r]} = t.
Proof. intros H. set_solver. Qed.

End Rows.

(** ** The toggles, case by case *)

Section Toggles.
Import Py Db PostService FollowService.

(** A like that is not there yet, on a post that exists: the row is made
    and the counter goes up by one. *)
Lemma toggle_like_create (u p : N) (d : Database) (row : Post) :
  (u, p) ∉ likes d ->
  posts d !! p = Some row ->
  (likes_count row < POSITIVE_INTEGER_MAX)%N ->
  toggle_like u p d =
  (Return (true, (likes_count row + 1)%N),
   mkDatabase
     (<[p := mkPost (post_user row) (content row) (likes_count row + 1) (comments_count row)]>
        (posts d))
     ({[(u, p)]} ∪ likes d) (follows d)).
Proof.
  intros Hnot Hrow Hroom.
  unfold toggle_like, atomic, bind, like_get_or_create.
  destruct (decide ((u, p) ∈ likes d)) as [Hin | _]; [contradiction |].
  unfold increment_likes_count, refreshed_likes_count, ret, set_likes, set_posts.
  cbn [posts likes follows]. rewrite Hrow.
  apply N.leb_gt in Hroom. rewrite Hroom. cbn [posts likes follows].
  now rewrite lookup_insert_eq.
Qed.

(** A like that is there, on a post whose counter is not zero: the row is
    deleted and the counter goes down by one. *)
Lemma toggle_like_delete (u p : N) (d : Database) (row : Post) :
  (u, p) ∈ likes d ->
  posts d !! p = Some row ->
  likes_count row <> 0%N ->
  toggle_like u p d =
  (Return (false, (likes_count row - 1)%N),
   mkDatabase
     (<[p := mkPost (post_user row) (content row) (likes_count row - 1) (comments_count row)]>
        (posts d))
     (likes d ∖ {[(u, p)]}) (follows d)).
Proof.
  intros Hin Hrow Hnz.
  unfold toggle_like, atomic, bind, like_get_or_create.
  destruct (decide ((u, p) ∈ likes d)) as [_ | Hnot]; [| contradiction].
  unfold like_delete, decrement_likes_count, refreshed_likes_count, ret, set_likes, set_posts.
  cbn [posts likes follows]. rewrite Hrow.
  apply N.eqb_neq in Hnz. rewrite Hnz. cbn [posts likes follows].
  now rewrite lookup_insert_eq.
Qed.

(** Every other call raises, and the transaction is rolled back: the
    post is missing, the like is there while the counter is zero, or the
    like is not there while the counter is at the top of its column. *)
Lemma toggle_like_rollback (u p : N) (d : Database) :
  posts d !! p = None
  \/ ((u, p) ∈ likes d /\ exists row, posts d !! p = Some row /\ likes_count row = 0%N)
  \/ (((u, p) ∉ likes d)
      /\ exists row, posts d !! p = Some row
                     /\ (POSITIVE_INTEGER_MAX <= likes_count row)%N) ->
  exists e, toggle_like u p d = (Raise e, d).
Proof.
  intros H.
  unfold toggle_like, atomic, bind, like_get_or_create.
  unfold like_delete, increment_likes_count, decrement_likes_count,
    refreshed_likes_count, ret, set_likes, set_posts.
  destruct H as [Hnone | [[Hin [row [Hrow Hz]]] | [Hnot [row [Hrow Hfull]]]]].
  - destruct (decide ((u, p) ∈ likes d)); cbn [posts likes follows];
      rewrite Hnone; cbn [posts likes follows]; rewrite Hnone; eauto.
  - destruct (decide ((u, p) ∈ likes d)) as [_ | Hnot]; [| contradiction].
    cbn [posts likes follows]. rewrite Hrow. apply N.eqb_eq in Hz. rewrite Hz. eauto.
  - destruct (decide ((u, p) ∈ likes d)) as [Hin | _]; [contradiction |].
    cbn [posts likes follows]. rewrite Hrow. apply N.leb_le in Hfull. rewrite Hfull. eauto.
Qed.

End Toggles.

Section Follows.
Import Py Db PostService FollowService.

(** A follow that is not there yet: the row is made, and the count read
    afterwards is one more than before. *)
Lemma toggle_follow_create (a b : N) (d : Database) :
  a <> b ->
  (a, b) ∉ follows d ->
  toggle_follow a b d =
  (Return (true, (N.of_nat (size (referencing b (follows d))) + 1)%N),
   mkDatabase (posts d) (likes d) ({[(a, b)]} ∪ follows d)).
Proof.
  intros Hne Hnot.
  unfold toggle_follow. apply N.eqb_neq in Hne. rewrite Hne.
  unfold except_integrity_error, bind, follow_create. rewrite Hne.
  destruct (decide ((a, b) ∈ follows d)) as [Hin | _]; [contradiction |].
  unfold followers_count, ret, set_follows. cbn [posts likes follows].
  rewrite rows_insert_same by assumption.
  now rewrite Nat2N.inj_succ, N.add_1_r.
Qed.

(** A follow that is there: creation is refused by [unique_follow], the
    row is deleted, and the count read afterwards is that of the rows
    left. *)
Lemma toggle_follow_delete (a b : N) (d : Database) :
  a <> b ->
  (a, b) ∈ follows d ->
  toggle_follow a b d =
  (Return (false, N.of_nat (size (referencing b (follows d ∖ {[(a, b)]})))),
   mkDatabase (posts d) (likes d) (follows d ∖ {[(a, b)]})).
Proof.
  intros Hne Hin.
  unfold toggle_follow. apply N.eqb_neq in Hne. rewrite Hne.
  unfold except_integrity_error, bind, follow_create. rewrite Hne.
  destruct (decide ((a, b) ∈ follows d)) as [_ | Hnot]; [| contradiction].
  reflexivity.
Qed.

(** The table itself refuses a self-follow. *)
Lemma follow_create_self (u : N) (d : Database) :
  follow_create u u d = (Raise (IntegrityError "no_self_follow"), d).
Proof. unfold follow_create. now rewrite N.eqb_refl. Qed.

End Follows.

Section Counter.
Import Py Db PostService FollowService.

(** One [toggle_like], on any post, keeps the counter of [post] equal to
    its rows. *)
Lemma toggle_like_step_consistent (u q : N) (d : Database) (post : N) :
  counter_consistent d post ->
  counter_consistent (snd (toggle_like u q d)) post.
Proof.
  intros [row [Hrow Hcount]].
  destruct (posts d !! q) as [rq |] eqn:Hq.
  2:{ destruct (toggle_like_rollback u q d) as [e ->]; [now left |].
      exists row. now split. }
  destruct (decide ((u, q) ∈ likes d)) as [Hin | Hnot].
  2: destruct (N.le_gt_cases POSITIVE_INTEGER_MAX (likes_count rq)) as [Hfull | Hroom].
  2:{ destruct (toggle_like_rollback u q d) as [e ->]; [right; right; eauto |].
      exists row. now split. }
  - destruct (N.eq_dec (likes_count rq) 0%N) as [Hz | Hnz].
    + destruct (toggle_like_rollback u q d) as [e ->]; [right; left; eauto |].
      exists row. now split.
    + rewrite (toggle_like_delete u q d rq) by assumption. cbn [snd].
      unfold counter_consistent, like_rows. cbn [posts likes].
      destruct (decide (q = post)) as [-> | Hne].
      * rewrite Hrow in Hq. injection Hq as <-.
        eexists. split; [apply lookup_insert_eq |]. cbn [likes_count].
        unfold like_rows in Hcount. rewrite Hcount.
        pose proof (rows_delete_same u post (likes d) Hin). lia.
      * exists row. split; [now rewrite lookup_insert_ne |].
        now rewrite rows_delete_other.
  - rewrite (toggle_like_create u q d rq) by assumption. cbn [snd].
    unfold counter_consistent, like_rows. cbn [posts likes].
    destruct (decide (q = post)) as [-> | Hne].
    + rewrite Hrow in Hq. injection Hq as <-.
      eexists. split; [apply lookup_insert_eq |]. cbn [likes_count].
      unfold like_rows in Hcount. rewrite Hcount.
      rewrite rows_insert_same by assumption. lia.
    + exists row. split; [now rewrite lookup_insert_ne |].
      now rewrite rows_insert_other.
Qed.

(** C3.  If the [likes_count] of a post equals the number of [Like] rows
    that reference it, it still does after any run of [toggle_like] calls
    made one after the other, by any users on any posts. *)
Theorem toggle_like_keeps_counter (calls : list (N * N)) (d : Database) (post : N) :
  counter_consistent d post ->
  counter_consistent (toggle_likes calls d) post.
Proof.
  revert d. induction calls as [| [u q] rest IH]; intros d H; cbn [toggle_likes].
  - exact H.
  - apply IH. now apply toggle_like_step_consistent.
Qed.

(** First likes of one post by different users, one call after the other,
    within the range of the column: each call makes its row, and the
    counter rises by the number of calls. *)
Lemma first_likes_add_up (users : list N) (p : N) (d : Database) (row : Post) :
  NoDup users ->
  (forall u, u ∈ users -> (u, p) ∉ likes d) ->
  posts d !! p = Some row ->
  (likes_count row + N.of_nat (length users) <= POSITIVE_INTEGER_MAX)%N ->
  let d' := toggle_likes (map (fun u => (u, p)) users) d in
  (exists row', posts d' !! p = Some row'
                /\ likes_count row' = (likes_count row + N.of_nat (length users))%N)
  /\ likes d' = list_to_set (map (fun u => (u, p)) users) ∪ likes d.
Proof.
  cbv zeta. revert d row.
  induction users as [| u us IH]; intros d row Hnodup Hfresh Hrow Hroom;
    cbn [map toggle_likes].
  - split; [exists row; split; [assumption | cbn; lia] | set_solver].
  - apply NoDup_cons in Hnodup as [Hu Hus]. cbn [length] in Hroom.
    rewrite (toggle_like_create u p d row);
      [| apply Hfresh; set_solver | assumption | lia].
    cbn [snd].
    edestruct (IH (mkDatabase
                     (<[p := mkPost (post_user row) (content row) (likes_count row + 1)
                               (comments_count row)]> (posts d))
                     ({[(u, p)]} ∪ likes d) (follows d))) as [[row' [Hrow' Hcount]] Hlikes].
    + exact Hus.
    + intros v Hv. cbn [likes]. apply not_elem_of_union. split.
      * apply not_elem_of_singleton. intros E. injection E as ->. contradiction.
      * apply Hfresh. set_solver.
    + cbn [posts]. apply lookup_insert_eq.
    + cbn [likes_count]. lia.
    + split.
      * exists row'. split; [exact Hrow' |]. rewrite Hcount. cbn [likes_count length]. lia.
      * rewrite Hlikes. cbn [likes list_to_set]. set_solver.
Qed.

(** C4, as the code has it.  With no row for (A, B) and the counter at
    [n], two [toggle] calls in a row answer [(true, n + 1)] and then
    [(false, n)], and leave the tables exactly as they were: for
    [toggle_like] on a post whose [likes_count] is [n], when [n] is below
    the top of the column, and for [toggle_follow] between two different
    users where [n] is the number of followers of B.  At the top of the
    column the first [toggle_like] is refused. *)
Theorem toggle_twice_is_noop :
  (forall (d : Database) (a p : N) (row : Post),
      posts d !! p = Some row ->
      (a, p) ∉ likes d ->
      (likes_count row < POSITIVE_INTEGER_MAX)%N ->
      let n := likes_count row in
      let first := toggle_like a p d in
      let second := toggle_like a p (snd first) in
      fst first = Return (true, (n + 1)%N)
      /\ fst second = Return (false, n)
      /\ snd second = d)
  /\
  (forall (d : Database) (a b : N),
      a <> b ->
      (a, b) ∉ follows d ->
      let n := N.of_nat (size (referencing b (follows d))) in
      let first := toggle_follow a b d in
      let second := toggle_follow a b (snd first) in
      fst first = Return (true, (n + 1)%N)
      /\ fst second = Return (false, n)
      /\ snd second = d).
Proof.
  split.
  - intros d a p row Hrow Hnot Hroom. cbv zeta.
    rewrite (toggle_like_create a p d row) by assumption. cbn [fst snd].
    split; [reflexivity |].
    rewrite (toggle_like_delete a p _
               (mkPost (post_user row) (content row) (likes_count row + 1)
                  (comments_count row))).
    + cbn [fst snd posts likes follows likes_count post_user content comments_count].
      split; [f_equal; f_equal; lia |].
      rewrite insert_insert_eq, insert_then_delete by assumption.
      replace (likes_count row + 1 - 1)%N with (likes_count row) by lia.
      destruct d as [ps ls fs], row as [pu c n cc]. cbn in *.
      f_equal. now apply insert_id.
    + cbn [likes]. set_solver.
    + cbn [posts]. apply lookup_insert_eq.
    + cbn [likes_count]. lia.
  - intros d a b Hne Hnot. cbv zeta.
    rewrite (toggle_follow_create a b d) by assumption. cbn [fst snd].
    split; [reflexivity |].
    rewrite (toggle_follow_delete a b) by (try assumption; cbn [follows]; set_solver).
    cbn [fst snd posts likes follows].
    rewrite insert_then_delete by assumption.
    split; [reflexivity |]. now destruct d.
Qed.

(** C7.  [toggle_follow] of a user on themselves raises [ValueError] and
    leaves every table as it was: no row is made or deleted and no count
    changes. *)
Theorem self_follow_rejected (u : N) (d : Database) :
  toggle_follow u u d = (Raise (ValueError "Cannot follow yourself"), d).
Proof. unfold toggle_follow. now rewrite N.eqb_refl. Qed.

End Counter.

(** ** The toggles on the sample tables *)

Section ToggleExamples.
Import Py Db PostService FollowService Examples.

(** C3 on the sample: likes and unlikes by three users on two posts, one
    of which does not exist. *)
Lemma toggle_like_keeps_counter_witness :
  counter_consistent one_post 7
  /\ counter_consistent (toggle_likes [(1, 7); (2, 7); (1, 7); (3, 8)]%N one_post) 7.
Proof.
  assert (counter_consistent one_post 7) as H.
  { exists (mkPost 1 "hi" 0 0). split; vm_compute; reflexivity. }
  split; [exact H |].
  apply (toggle_like_keeps_counter [(1, 7); (2, 7); (1, 7); (3, 8)]%N one_post 7 H).
Defined.

(** C4 on the sample: user 1 likes post 7 twice, and follows user 2
    twice. *)
Lemma toggle_twice_is_noop_witness :
  (fst (toggle_like 1 7 one_post) = Return (true, 1%N)
   /\ fst (toggle_like 1 7 (snd (toggle_like 1 7 one_post))) = Return (false, 0%N)
   /\ snd (toggle_like 1 7 (snd (toggle_like 1 7 one_post))) = one_post)
  /\
  (fst (toggle_follow 1 2 one_post) = Return (true, 1%N)
   /\ fst (toggle_follow 1 2 (snd (toggle_follow 1 2 one_post))) = Return (false, 0%N)
   /\ snd (toggle_follow 1 2 (snd (toggle_follow 1 2 one_post))) = one_post).
Proof.
  split.
  - apply (proj1 toggle_twice_is_noop one_post 1%N 7%N (mkPost 1 "hi" 0 0)).
    + vm_compute. reflexivity.
    + apply not_elem_of_empty.
    + reflexivity.
  - apply (proj2 toggle_twice_is_noop one_post 1%N 2%N).
    + discriminate.
    + apply not_elem_of_empty.
Defined.

(** C4 as the claim words it fails on the sample: post 7 has no like by
    user 1 and its counter is 2147483647; the first [toggle_like] does not
    answer [(true, n + 1)], it raises [DataError] and is rolled back. *)
Lemma toggle_twice_is_noop_counterexample :
  posts full_post !! 7%N = Some (mkPost 1 "hi" 2147483647 0)
  /\ bool_decide ((1%N, 7%N) ∈ likes full_post) = false
  /\ toggle_like 1 7 full_post = (Raise (DataError "integer out of range"), full_post).
Proof. vm_compute. repeat split. Qed.

(** The spec's scenario, computed: like, then unlike. *)
Example like_then_unlike :
  fst (toggle_like 1 7 one_post) = Return (true, 1%N)
  /\ fst (toggle_like 1 7 (snd (toggle_like 1 7 one_post))) = Return (false, 0%N).
Proof. vm_compute. split; reflexivity. Qed.

End ToggleExamples.

(** * Further properties *)

(** ** The gateway over two calls *)

Section GatewayRuns.
Import Py Idempotency.
Context {DB : Type}.
Implicit Types (func : Handler DB) (request : Request) (w : World DB).

(** The two cache keys of one token are the keys of no other token,
    unless one token is the other with [fp:] in front. *)
Lemma get_cache_key_inj (k k' : string) : get_cache_key k = get_cache_key k' -> k = k'.
Proof. unfold get_cache_key. cbn. intros H. now injection H. Qed.

Lemma get_fingerprint_key_inj (k k' : string) :
  get_fingerprint_key k = get_fingerprint_key k' -> k = k'.
Proof. unfold get_fingerprint_key. cbn. intros H. now injection H. Qed.

Lemma cache_key_is_fingerprint_key (k k' : string) :
  get_cache_key k' = get_fingerprint_key k <-> k' = "fp:" ++ k.
Proof.
  unfold get_cache_key, get_fingerprint_key. cbn. split.
  - intros H. now injection H.
  - now intros ->.
Qed.

(** X1.  A request with a token under which no record is found, and a view
    that answers 2xx: the gateway returns the view's response unchanged,
    leaves the database as the view left it, and afterwards the response
    data and status are found under the token, with the digest of the
    request as fingerprint. *)
Theorem first_execution_is_recorded func request w key (response : Response) (w' : World DB) :
  get_idempotency_key request = Some key ->
  key <> "" ->
  truthy_opt (get_idempotent_response key (cache w)) = false ->
  func request w = (Return response, w') ->
  200 <= status_code response < 300 ->
  let w1 := snd (wrapper func request w) in
  fst (wrapper func request w) = Return response
  /\ db w1 = db w'
  /\ get_idempotent_response key (cache w1)
     = Some (CachedResponse (resp_data response) (status_code response))
  /\ get_stored_fingerprint key (cache w1)
     = Some (CachedStr (generate_request_fingerprint request)).
Proof.
  intros Hkey Hne Hmiss Hf Hstatus.
  destruct (wrapper_miss_then_lookup func request w key response w'
              Hkey Hne Hmiss Hf Hstatus) as [Hfst [Hresp Hfp]].
  cbv zeta in *. repeat split; try assumption.
  rewrite (wrapper_miss func request w key) by assumption. rewrite Hf.
  destruct ((200 <=? status_code response) && (status_code response <? 300)); reflexivity.
Qed.

(** X2.  A first execution answered 2xx, then the same request again under
    the same token, through any view: the second answer carries the data
    and the status of the first with [X-Idempotent-Replayed: true], and
    the second call leaves the world as the first call left it, so the
    mutation is applied once. *)
Theorem retry_is_replayed func (func' : Handler DB) request w key
    (response : Response) (w' : World DB) :
  get_idempotency_key request = Some key ->
  key <> "" ->
  truthy_opt (get_idempotent_response key (cache w)) = false ->
  func request w = (Return response, w') ->
  200 <= status_code response < 300 ->
  let w1 := snd (wrapper func request w) in
  exists replay,
    wrapper func' request w1 = (Return replay, w1)
    /\ resp_data replay = resp_data response
    /\ status_code replay = status_code response
    /\ headers replay !! "X-Idempotent-Replayed" = Some "true".
Proof.
  intros Hkey Hne Hmiss Hf Hstatus. cbv zeta.
  eexists. split.
  - apply (retry_replays_first_answer func func' request w key response w'); assumption.
  - split; [reflexivity |]. split; [reflexivity |].
    cbn [headers set_header new_response]. apply lookup_insert_eq.
Qed.

(** X3.  A first execution answered 2xx, then a request with another
    fingerprint under the same token, through any view: the second call is
    answered with the 409 conflict response and leaves the world as the
    first call left it. *)
Theorem retry_with_other_body_is_rejected
    func (func' : Handler DB) request (request' : Request) w key
    (response : Response) (w' : World DB) :
  get_idempotency_key request = Some key ->
  get_idempotency_key request' = Some key ->
  key <> "" ->
  truthy_opt (get_idempotent_response key (cache w)) = false ->
  func request w = (Return response, w') ->
  200 <= status_code response < 300 ->
  generate_request_fingerprint request' <> generate_request_fingerprint request ->
  let w1 := snd (wrapper func request w) in
  wrapper func' request' w1 = (Return conflict_response, w1)
  /\ status_code conflict_response = 409.
Proof.
  intros Hkey Hkey' Hne Hmiss Hf Hstatus Hdiff. cbv zeta. split; [| reflexivity].
  apply (retry_with_other_fingerprint_conflicts func func' request request' w key response w');
    assumption.
Qed.

(** X4.  A request with a token under which no record is found, and a view
    that raises: the exception passes through the gateway, the world is
    the one the view left, and no record is stored. *)
Theorem view_exception_passes_through func request w key (e : exn) (w' : World DB) :
  get_idempotency_key request = Some key ->
  key <> "" ->
  truthy_opt (get_idempotent_response key (cache w)) = false ->
  func request w = (Raise e, w') ->
  wrapper func request w = (Raise e, w').
Proof.
  intros Hkey Hne Hmiss Hf.
  rewrite (wrapper_miss func request w key) by assumption. now rewrite Hf.
Qed.

(** X5.  A request with a token under which a record is found: whatever
    the gateway answers (the replay, the conflict, or the [TypeError] of a
    stored value that is no response), the answer is the same for every
    wrapped view and the world is left untouched.  On a hit the view is
    never run and nothing is written. *)
Theorem hit_never_runs_view func (func' : Handler DB) request w key :
  get_idempotency_key request = Some key ->
  key <> "" ->
  truthy_opt (get_idempotent_response key (cache w)) = true ->
  wrapper func request w = wrapper func' request w
  /\ snd (wrapper func request w) = w.
Proof.
  intros Hkey Hne Hhit.
  rewrite (wrapper_hit func request w key), (wrapper_hit func' request w key) by assumption.
  split; [reflexivity |].
  destruct (truthy_opt (get_stored_fingerprint key (cache w))
            && ne_str (get_stored_fingerprint key (cache w))
                 (generate_request_fingerprint request)); reflexivity.
Qed.

(** X6.  A request with a token under which no record is found: whatever
    the view does, the gateway adds to the view's world at most the two
    cache entries of that token.  The database is the view's, and every
    other cache key reads as the view left it. *)
Theorem miss_writes_only_its_two_keys func request w key :
  get_idempotency_key request = Some key ->
  key <> "" ->
  truthy_opt (get_idempotent_response key (cache w)) = false ->
  let w' := snd (func request w) in
  let w1 := snd (wrapper func request w) in
  db w1 = db w'
  /\ forall k : string,
       k <> get_cache_key key ->
       k <> get_fingerprint_key key ->
       cache_get k (cache w1) = cache_get k (cache w').
Proof.
  intros Hkey Hne Hmiss. cbv zeta.
  rewrite (wrapper_miss func request w key) by assumption.
  destruct (func request w) as [[response | e] w']; cbn [snd]; [| now split].
  destruct ((200 <=? status_code response) && (status_code response <? 300));
    cbn [snd]; [| now split].
  split; [reflexivity |]. intros k Hk Hfp.
  unfold with_cache, store_idempotent_response. cbn [cache].
  rewrite !cache_get_set_ne by congruence. reflexivity.
Qed.

End GatewayRuns.

(** ** Tokens and their cache keys *)

Section Tokens.
Import Py Idempotency Text.
Context {DB : Type}.
Implicit Types (func : Handler DB) (request : Request) (w : World DB).

(** X7.  Storing a response under one token leaves the stored response and
    the stored fingerprint of every other token as they were, as long as
    neither token is the other with [fp:] in front. *)
Theorem tokens_do_not_interfere
    (k k' fp : string) (d : py_value) (st : Z) (c : Cache) :
  k' <> k ->
  k' <> "fp:" ++ k ->
  k <> "fp:" ++ k' ->
  get_idempotent_response k' (store_idempotent_response k fp d st c)
  = get_idempotent_response k' c
  /\ get_stored_fingerprint k' (store_idempotent_response k fp d st c)
     = get_stored_fingerprint k' c.
Proof.
  intros Hne Hfp Hfp'.
  unfold get_idempotent_response, get_stored_fingerprint, store_idempotent_response.
  split; rewrite !cache_get_set_ne; try reflexivity.
  - intros E. apply get_cache_key_inj in E. congruence.
  - intros E. symmetry in E. apply cache_key_is_fingerprint_key in E. congruence.
  - intros E. apply cache_key_is_fingerprint_key in E. congruence.
  - intros E. apply get_fingerprint_key_inj in E. congruence.
Qed.


(** A first execution answered 2xx, then any request with the same token
    and the same fingerprint: the first answer is replayed. *)
Lemma retry_with_same_fingerprint_replays
    func (func' : Handler DB) request (request' : Request) w key
    (response : Response) (w' : World DB) :
  get_idempotency_key request = Some key ->
  get_idempotency_key request' = Some key ->
  key <> "" ->
  truthy_opt (get_idempotent_response key (cache w)) = false ->
  func request w = (Return response, w') ->
  200 <= status_code response < 300 ->
  generate_request_fingerprint request' = generate_request_fingerprint request ->
  let w1 := snd (wrapper func request w) in
  wrapper func' request' w1
  = (Return (set_header "X-Idempotent-Replayed" "true"
               (new_response (resp_data response) (status_code response))),
     w1).
Proof.
  intros Hkey Hkey' Hne Hmiss Hf Hstatus Hsame.
  destruct (wrapper_miss_then_lookup func request w key response w'
              Hkey Hne Hmiss Hf Hstatus) as [_ [Hresp Hfp]].
  cbv zeta in *.
  rewrite (wrapper_hit func' request' _ key) by (try assumption; now rewrite Hresp).
  rewrite Hfp, Hresp, Hsame. cbn [ne_str replay_response].
  now rewrite String.eqb_refl, andb_false_r.
Qed.

(** [str] of a text is the text. *)
Lemma fingerprint_of_text_body (request request' : Request) :
  method request' = method request ->
  path request' = path request ->
  user request' = user request ->
  data request' = PyStr (str (data request)) ->
  generate_request_fingerprint request' = generate_request_fingerprint request.
Proof.
  intros Hm Hp Hu Hd. rewrite !fingerprint_canonical. now rewrite Hm, Hp, Hu, Hd.
Qed.

(** X9.  The fingerprint reads the body through [str], so a body that is
    the JSON text of [str(body)] has the fingerprint of [body] itself.  A
    first execution answered 2xx, followed under the same token by a
    request with the same method, path and caller whose body is that text,
    is answered with the replay of the first answer and not with the
    conflict response. *)
Theorem text_body_retry_is_replayed
    func (func' : Handler DB) request (request' : Request) w key
    (response : Response) (w' : World DB) :
  get_idempotency_key request = Some key ->
  get_idempotency_key request' = Some key ->
  key <> "" ->
  truthy_opt (get_idempotent_response key (cache w)) = false ->
  func request w = (Return response, w') ->
  200 <= status_code response < 300 ->
  method request' = method request ->
  path request' = path request ->
  user request' = user request ->
  data request' = PyStr (str (data request)) ->
  let w1 := snd (wrapper func request w) in
  wrapper func' request' w1
  = (Return (set_header "X-Idempotent-Replayed" "true"
               (new_response (resp_data response) (status_code response))),
     w1).
Proof.
  intros Hkey Hkey' Hne Hmiss Hf Hstatus Hm Hp Hu Hd.
  apply (retry_with_same_fingerprint_replays func func' request request' w key response w');
    try assumption.
  now apply fingerprint_of_text_body.
Qed.

Lemma hex_digit_is_hex (n : N) : is_hex_digit (hex_digit (n mod 16)) = true.
Proof.
  assert (n mod 16 < 16)%N as H by (apply N.mod_lt; discriminate).
  destruct (n mod 16)%N as [| p]; [reflexivity |].
  do 4 (destruct p as [p | p |]; try reflexivity; try (exfalso; lia)).
Qed.

Lemma all_chars_append (p : ascii -> bool) (s t : string) :
  all_chars p (s ++ t) = all_chars p s && all_chars p t.
Proof.
  induction s as [| c s IH]; simpl; [reflexivity |]. now rewrite IH, andb_assoc.
Qed.

Lemma hex_fixed_is_hex (digits : nat) (n : N) :
  all_chars is_hex_digit (Py.hex_fixed digits n) = true.
Proof.
  revert n. induction digits as [| d IH]; intros n; cbn [Py.hex_fixed]; [reflexivity |].
  rewrite all_chars_append, IH. cbn [all_chars]. now rewrite hex_digit_is_hex.
Qed.

(** X10.  The fingerprint of every request is sixty-four lowercase
    hexadecimal digits; in particular it is never the empty text, which
    the gateway would take for a missing fingerprint. *)
Theorem fingerprint_is_hex64 (request : Request) :
  String.length (generate_request_fingerprint request) = 64%nat
  /\ all_chars is_hex_digit (generate_request_fingerprint request) = true
  /\ truthy_opt (Some (CachedStr (generate_request_fingerprint request))) = true.
Proof.
  split; [apply fingerprint_length |]. split; [| apply fingerprint_truthy].
  unfold generate_request_fingerprint, Sha256.hexdigest, Sha256.hex32.
  rewrite !all_chars_append, !hex_fixed_is_hex. reflexivity.
Qed.

End Tokens.

(** ** The middleware *)

Section MiddlewareRuns.
Import Py Idempotency MiddlewareNames.
Context {DB : Type}.
Variable json_loads : string -> outcome py_value.
Variable JsonResponse : py_value -> Z -> outcome HttpResponse.
Implicit Types (get_response : Request -> World DB -> outcome HttpResponse * World DB).
Implicit Types (request : Request) (w : World DB).

Lemma middleware_hit get_response request w key :
  mutating request = true ->
  get_idempotency_key request = Some key ->
  key <> "" ->
  truthy_opt (get_idempotent_response key (cache w)) = true ->
  middleware_call json_loads JsonResponse get_response request w =
  match get_idempotent_response key (cache w) with
  | Some (CachedResponse d st) =>
      match JsonResponse d st with
      | Raise e => (Raise e, w)
      | Return response =>
          (Return (http_set_header "X-Idempotent-Replayed" "true" response), w)
      end
  | Some (CachedStr _) => (Raise (TypeError "string indices must be integers"), w)
  | None => (Raise (TypeError "'NoneType' object is not subscriptable"), w)
  end.
Proof.
  intros Hm Hkey Hne Hhit. unfold middleware_call, mutating in *. cbv zeta.
  unfold get_idempotency_key in Hkey.
  now rewrite Hm, Hkey, (key_truthy key Hne), Hhit.
Qed.

Lemma middleware_miss get_response request w key :
  mutating request = true ->
  get_idempotency_key request = Some key ->
  key <> "" ->
  truthy_opt (get_idempotent_response key (cache w)) = false ->
  middleware_call json_loads JsonResponse get_response request w =
  match get_response request w with
  | (Raise e, w') => (Raise e, w')
  | (Return response, w') =>
      if (200 <=? http_status_code response) && (http_status_code response <? 300)
      then
        match content response with
        | None => (Return response, w')
        | Some text =>
            match json_loads text with
            | Return data =>
                (Return response,
                 with_cache
                   (store_idempotent_response key "" data (http_status_code response)
                      (cache w'))
                   w')
            | Raise e => if caught e then (Return response, w') else (Raise e, w')
            end
        end
      else (Return response, w')
  end.
Proof.
  intros Hm Hkey Hne Hmiss. unfold middleware_call, mutating in *. cbv zeta.
  unfold get_idempotency_key in Hkey.
  now rewrite Hm, Hkey, (key_truthy key Hne), Hmiss.
Qed.

(** X11.  The middleware on a [POST], [PUT] or [PATCH] with a token under
    which no record is found, when the inner handler answers 2xx with a
    JSON body: the answer is returned unchanged, and the record stored for
    the token has the parsed body, the status, and the empty text as its
    fingerprint, which reads as no fingerprint. *)
Theorem middleware_records_without_fingerprint
    get_response request w key (response : HttpResponse) (w' : World DB)
    (text : string) (d : py_value) :
  mutating request = true ->
  get_idempotency_key request = Some key ->
  key <> "" ->
  truthy_opt (get_idempotent_response key (cache w)) = false ->
  get_response request w = (Return response, w') ->
  200 <= http_status_code response < 300 ->
  content response = Some text ->
  json_loads text = Return d ->
  let w1 := snd (middleware_call json_loads JsonResponse get_response request w) in
  fst (middleware_call json_loads JsonResponse get_response request w) = Return response
  /\ db w1 = db w'
  /\ get_idempotent_response key (cache w1)
     = Some (CachedResponse d (http_status_code response))
  /\ get_stored_fingerprint key (cache w1) = Some (CachedStr "")
  /\ truthy_opt (get_stored_fingerprint key (cache w1)) = false.
Proof.
  intros Hm Hkey Hne Hmiss Hget [Hlo Hhi] Hcontent Hjson. cbv zeta.
  rewrite (middleware_miss get_response request w key) by assumption.
  rewrite Hget. apply Z.leb_le in Hlo. apply Z.ltb_lt in Hhi.
  rewrite Hlo, Hhi, Hcontent, Hjson. cbn [andb fst snd with_cache cache db].
  rewrite stored_response_found, stored_fingerprint_found. now repeat split.
Qed.

(** X12.  The middleware leaves alone every request whose method is not
    [POST], [PUT] or [PATCH], and every request with no token or an empty
    one: its result is the inner handler's, response and world. *)
Theorem middleware_passes_other_requests get_response request w :
  mutating request = false \/ truthy_str (get_idempotency_key request) = false ->
  middleware_call json_loads JsonResponse get_response request w = get_response request w.
Proof.
  intros H. unfold middleware_call, mutating, get_idempotency_key, truthy_str in *.
  destruct (existsb (String.eqb (method request)) IDEMPOTENT_METHODS); cbn [negb];
    [| reflexivity].
  destruct H as [H | H]; [discriminate H |].
  destruct (META request !! IDEMPOTENCY_HEADER) as [key |]; [| reflexivity].
  unfold truthy. now rewrite H.
Qed.

(** X13.  The middleware on a hit compares no fingerprint: two requests
    with the same token, whatever their methods among [POST], [PUT],
    [PATCH], their paths, bodies and callers, get the same answer, built
    from the stored record alone; the inner handler is not run and the
    world is left untouched. *)
Theorem middleware_replays_any_request
    get_response (get_response' : Request -> World DB -> outcome HttpResponse * World DB)
    request (request' : Request) w key :
  mutating request = true ->
  mutating request' = true ->
  get_idempotency_key request = Some key ->
  get_idempotency_key request' = Some key ->
  key <> "" ->
  truthy_opt (get_idempotent_response key (cache w)) = true ->
  middleware_call json_loads JsonResponse get_response request w
  = middleware_call json_loads JsonResponse get_response' request' w
  /\ snd (middleware_call json_loads JsonResponse get_response request w) = w.
Proof.
  intros Hm Hm' Hkey Hkey' Hne Hhit.
  rewrite (middleware_hit get_response request w key),
    (middleware_hit get_response' request' w key) by assumption.
  split; [reflexivity |].
  destruct (get_idempotent_response key (cache w)) as [[d st | s] |]; try reflexivity.
  destruct (JsonResponse d st); reflexivity.
Qed.

(** X14.  The middleware on a miss.  An exception of the inner handler
    passes through.  An answer that is not 2xx, has no content, or has
    content on which [json.loads] raises [JSONDecodeError] (or
    [AttributeError]) is returned unchanged and nothing is stored.  When
    [json.loads] raises any other exception on the content of a 2xx
    answer ([UnicodeDecodeError] for bytes that are not UTF-8), nothing
    catches it: the exception replaces the answer, the world stays the
    one the inner handler left, and nothing is stored. *)
Theorem middleware_skips_other_answers get_response request w key :
  mutating request = true ->
  get_idempotency_key request = Some key ->
  key <> "" ->
  truthy_opt (get_idempotent_response key (cache w)) = false ->
  (forall (e : exn) (w' : World DB),
      get_response request w = (Raise e, w') ->
      middleware_call json_loads JsonResponse get_response request w = (Raise e, w'))
  /\ (forall (response : HttpResponse) (w' : World DB),
        get_response request w = (Return response, w') ->
        ~ (200 <= http_status_code response < 300)
        \/ content response = None
        \/ (exists text e,
               content response = Some text
               /\ json_loads text = Raise e /\ caught e = true) ->
        middleware_call json_loads JsonResponse get_response request w
        = (Return response, w'))
  /\ (forall (response : HttpResponse) (w' : World DB) (text : string) (e : exn),
        get_response request w = (Return response, w') ->
        200 <= http_status_code response < 300 ->
        content response = Some text ->
        json_loads text = Raise e ->
        caught e = false ->
        middleware_call json_loads JsonResponse get_response request w = (Raise e, w')).
Proof.
  intros Hm Hkey Hne Hmiss.
  rewrite (middleware_miss get_response request w key) by assumption.
  split; [| split].
  - intros e w' Hget. now rewrite Hget.
  - intros response w' Hget Hskip. rewrite Hget.
    destruct Hskip as [Hstatus | [Hnone | [text [e [Htext [Hjson Hcaught]]]]]].
    + destruct (Z.leb_spec 200 (http_status_code response));
        destruct (Z.ltb_spec (http_status_code response) 300); cbn [andb]; try reflexivity.
      exfalso. apply Hstatus. lia.
    + rewrite Hnone. now destruct ((200 <=? _) && _).
    + rewrite Htext, Hjson, Hcaught. now destruct ((200 <=? _) && _).
  - intros response w' text e Hget [Hlo Hhi] Htext Hjson Hcaught. rewrite Hget.
    apply Z.leb_le in Hlo. apply Z.ltb_lt in Hhi.
    now rewrite Hlo, Hhi, Htext, Hjson, Hcaught.
Qed.

End MiddlewareRuns.

(** ** The hashed text keeps its four parts apart *)

Section HashedText.
Import Py Idempotency FingerprintText.

Lemma string_append_nil (t : string) : "" ++ t = t.
Proof. reflexivity. Qed.

Lemma string_append_cons (c : ascii) (s t : string) :
  String c s ++ t = String c (s ++ t).
Proof. reflexivity. Qed.

Lemma string_append_assoc (s t u : string) : (s ++ t) ++ u = s ++ (t ++ u).
Proof.
  induction s as [| c s IH]; [reflexivity |].
  rewrite !string_append_cons. now rewrite IH.
Qed.

Lemma string_append_inj_l (p x y : string) : p ++ x = p ++ y -> x = y.
Proof.
  induction p as [| c p IH]; intros H; [exact H |].
  rewrite !string_append_cons in H. injection H as H. now apply IH.
Qed.

(** [unescape_char] reads back what [Json.escape_char] wrote, whatever
    follows. *)
Lemma unescape_escape_char (c : ascii) (x : string) :
  unescape_char (Json.escape_char c ++ x) = Some (c, x).
Proof.
  destruct c as [b0 b1 b2 b3 b4 b5 b6 b7].
  destruct b0, b1, b2, b3, b4, b5, b6, b7; reflexivity.
Qed.

(** An escaped character never starts with the closing quote. *)
Lemma escape_char_not_quote (c : ascii) (x r : string) :
  Json.escape_char c ++ x <> String dquote r.
Proof.
  intros H. pose proof (unescape_escape_char c x) as U. rewrite H in U.
  cbv in U. injection U as <- _. cbv in H. discriminate H.
Qed.

Lemma escape_inj (s s' r r' : string) :
  Json.escape s ++ String dquote r = Json.escape s' ++ String dquote r' ->
  s = s' /\ r = r'.
Proof.
  revert s'. induction s as [| c s IH]; intros [| c' s']; cbn [Json.escape].
  - rewrite !string_append_nil. intros H. injection H as H. now split.
  - rewrite string_append_assoc, string_append_nil. intros H. symmetry in H.
    now apply escape_char_not_quote in H.
  - rewrite string_append_assoc, string_append_nil. intros H.
    now apply escape_char_not_quote in H.
  - rewrite !string_append_assoc. intros H.
    pose proof (unescape_escape_char c (Json.escape s ++ String dquote r)) as U.
    rewrite H, unescape_escape_char in U. injection U as -> E.
    symmetry in E. apply IH in E as [-> ->]. now split.
Qed.

Lemma encode_str_inj (s s' r r' : string) :
  Json.encode_str s ++ r = Json.encode_str s' ++ r' -> s = s' /\ r = r'.
Proof.
  unfold Json.encode_str.
  rewrite !string_append_cons, !string_append_assoc, !string_append_cons,
    !string_append_nil.
  intros H. injection H as H. now apply escape_inj.
Qed.

Lemma dumps_sorted_four_inj (b m p u b' m' p' u' : string) :
  Json.dumps_sorted [("method", m); ("path", p); ("body", b); ("user", u)]
  = Json.dumps_sorted [("method", m'); ("path", p'); ("body", b'); ("user", u')] ->
  m = m' /\ p = p' /\ b = b' /\ u = u'.
Proof.
  unfold Json.dumps_sorted.
  change (Json.sort_items [("method", m); ("path", p); ("body", b); ("user", u)])
    with [("body", b); ("method", m); ("path", p); ("user", u)].
  change (Json.sort_items [("method", m'); ("path", p'); ("body", b'); ("user", u')])
    with [("body", b'); ("method", m'); ("path", p'); ("user", u')].
  cbn [map Py.join]. unfold Json.encode_item. cbn [fst snd].
  rewrite !string_append_assoc. intros H.
  apply string_append_inj_l in H.
  apply string_append_inj_l in H. apply string_append_inj_l in H.
  apply encode_str_inj in H as [-> H].
  apply string_append_inj_l in H.
  apply string_append_inj_l in H. apply string_append_inj_l in H.
  apply encode_str_inj in H as [-> H].
  apply string_append_inj_l in H.
  apply string_append_inj_l in H. apply string_append_inj_l in H.
  apply encode_str_inj in H as [-> H].
  apply string_append_inj_l in H.
  apply string_append_inj_l in H. apply string_append_inj_l in H.
  apply encode_str_inj in H as [-> _].
  repeat split.
Qed.

(** X30.  The digest is taken of [content], and [content] keeps the four
    parts apart: two requests are hashed from the same text exactly when
    they have the same method, the same path, the same [str] of the body
    and the same user text.  No choice of quotes, backslashes, commas or
    control characters inside one part makes it read as another. *)
Theorem hashed_text_separates_parts (r r' : Request) :
  generate_request_fingerprint r = Sha256.hexdigest (encode (content r))
  /\ (content r = content r'
      <-> method r = method r' /\ path r = path r'
          /\ str (data r) = str (data r') /\ user_text r = user_text r').
Proof.
  split; [reflexivity |]. unfold content. split.
  - apply dumps_sorted_four_inj.
  - intros (-> & -> & -> & ->). reflexivity.
Qed.

End HashedText.

(** ** The toggles and the queries *)

Section ToggleRuns.
Import Py Db PostService FollowService Queries.

Lemma is_following_true (a b : N) (d : Database) :
  is_following a b d = true <-> (a, b) ∈ follows d.
Proof. unfold is_following. apply bool_decide_eq_true. Qed.

Lemma liked_ids_spec (u p : N) (d : Database) :
  p ∈ get_user_liked_post_ids u d <-> (u, p) ∈ likes d.
Proof.
  unfold get_user_liked_post_ids. rewrite elem_of_map. split.
  - intros [[u' p'] [-> H]]. apply elem_of_filter in H. cbn in H.
    destruct H as [-> H]. exact H.
  - intros H. exists (u, p). split; [reflexivity |]. apply elem_of_filter. now split.
Qed.

(** [toggle_follow] between two different users: what it returns and
    what it leaves. *)
Lemma toggle_follow_outcome (a b : N) (d : Database) :
  a <> b ->
  exists d',
    toggle_follow a b d
    = (Return (negb (is_following a b d), N.of_nat (size (get_followers b d'))), d')
    /\ is_following a b d' = negb (is_following a b d)
    /\ posts d' = posts d
    /\ likes d' = likes d
    /\ forall x y : N, (x, y) <> (a, b) -> is_following x y d' = is_following x y d.
Proof.
  intros Hne. unfold is_following, get_followers.
  destruct (decide ((a, b) ∈ follows d)) as [Hin | Hnot].
  - exists (mkDatabase (posts d) (likes d) (follows d ∖ {[(a, b)]})).
    rewrite (toggle_follow_delete a b d Hne Hin).
    rewrite (bool_decide_eq_true_2 _ Hin). cbn [negb follows posts likes].
    split; [reflexivity |]. split; [apply bool_decide_eq_false_2; set_solver |].
    split; [reflexivity |]. split; [reflexivity |].
    intros x y Hxy. apply bool_decide_ext. set_solver.
  - exists (mkDatabase (posts d) (likes d) ({[(a, b)]} ∪ follows d)).
    rewrite (toggle_follow_create a b d Hne Hnot).
    rewrite (bool_decide_eq_false_2 _ Hnot). cbn [negb follows posts likes].
    split; [| split; [apply bool_decide_eq_true_2; set_solver |]].
    + rewrite rows_insert_same by assumption.
      now rewrite Nat2N.inj_succ, N.add_1_r.
    + split; [reflexivity |]. split; [reflexivity |].
      intros x y Hxy. apply bool_decide_ext. set_solver.
Qed.

(** X15.  [toggle_follow] between two different users always returns, and
    it flips the relation: the flag returned is the negation of
    [is_following] before and is [is_following] afterwards, the count
    returned is the number of followers of the target afterwards, and no
    other follow, no like and no post is touched. *)
Theorem toggle_follow_flips_relation (a b : N) (d : Database) :
  a <> b ->
  exists d',
    toggle_follow a b d
    = (Return (negb (is_following a b d), N.of_nat (size (get_followers b d'))), d')
    /\ is_following a b d' = negb (is_following a b d)
    /\ posts d' = posts d
    /\ likes d' = likes d
    /\ forall x y : N, (x, y) <> (a, b) -> is_following x y d' = is_following x y d.
Proof. apply toggle_follow_outcome. Qed.

(** X16.  [toggle_like] either raises and leaves every table as it was,
    or returns and flips the like.  It raises exactly in three cases: the
    post is missing; the like is there while the counter is zero; the
    like is not there while the counter is at the top of its column,
    2147483647.  When it returns, the flag returned is the negation of
    the membership of the post in [get_user_liked_post_ids] before and is
    that membership afterwards, and the count returned is the
    [likes_count] then stored. *)
Theorem toggle_like_flips_or_rolls_back (u p : N) (d : Database) :
  let liked := bool_decide (p ∈ get_user_liked_post_ids u d) in
  let refused :=
    posts d !! p = None
    \/ (liked = true
        /\ exists row, posts d !! p = Some row /\ likes_count row = 0%N)
    \/ (liked = false
        /\ exists row, posts d !! p = Some row
                       /\ (POSITIVE_INTEGER_MAX <= likes_count row)%N) in
  (refused /\ exists e, toggle_like u p d = (Raise e, d))
  \/ (~ refused
      /\ exists n d',
           toggle_like u p d = (Return (negb liked, n), d')
           /\ bool_decide (p ∈ get_user_liked_post_ids u d') = negb liked
           /\ (exists row', posts d' !! p = Some row' /\ likes_count row' = n)).
Proof.
  cbv zeta.
  destruct (posts d !! p) as [row |] eqn:Hrow.
  2:{ left. split; [now left |]. apply toggle_like_rollback. now left. }
  destruct (decide ((u, p) ∈ likes d)) as [Hin | Hnot].
  - rewrite (bool_decide_eq_true_2 (p ∈ get_user_liked_post_ids u d))
      by now apply liked_ids_spec.
    destruct (N.eq_dec (likes_count row) 0%N) as [Hz | Hnz].
    + left. split; [right; left; eauto |].
      apply toggle_like_rollback. right. left. eauto.
    + right. split.
      { intros [H | [[_ [row0 [H0 Hz]]] | [H _]]];
          [discriminate H | congruence | discriminate H]. }
      do 2 eexists. rewrite (toggle_like_delete u p d row) by assumption.
      cbn [negb]. split; [reflexivity |].
      split; [apply bool_decide_eq_false_2; rewrite liked_ids_spec; cbn [likes]; set_solver |].
      eexists; split; [cbn [posts]; apply lookup_insert_eq | reflexivity].
  - rewrite (bool_decide_eq_false_2 (p ∈ get_user_liked_post_ids u d))
      by now rewrite liked_ids_spec.
    destruct (N.le_gt_cases POSITIVE_INTEGER_MAX (likes_count row)) as [Hfull | Hroom].
    + left. split; [right; right; eauto |].
      apply toggle_like_rollback. right. right. eauto.
    + right. split.
      { intros [H | [[H _] | [_ [row0 [H0 Hfull]]]]];
          [discriminate H | discriminate H |].
        assert (row0 = row) as -> by congruence. lia. }
      do 2 eexists. rewrite (toggle_like_create u p d row) by assumption.
      cbn [negb]. split; [reflexivity |].
      split; [apply bool_decide_eq_true_2; rewrite liked_ids_spec; cbn [likes]; set_solver |].
      eexists; split; [cbn [posts]; apply lookup_insert_eq | reflexivity].
Qed.

(** X17.  [toggle_like] by a user on a post touches nothing else: no
    follow, no other post, no like of another user or of another post,
    and on the post itself only [likes_count]. *)
Theorem toggle_like_touches_one_post_and_one_row (u p : N) (d : Database) :
  let d' := snd (toggle_like u p d) in
  follows d' = follows d
  /\ (forall q : N, q <> p -> posts d' !! q = posts d !! q)
  /\ (forall r : N * N, r <> (u, p) -> r ∈ likes d' <-> r ∈ likes d)
  /\ (forall row : Post,
        posts d !! p = Some row ->
        exists row', posts d' !! p = Some row'
                     /\ post_user row' = post_user row
                     /\ content row' = content row
                     /\ comments_count row' = comments_count row).
Proof.
  cbv zeta.
  destruct (posts d !! p) as [row |] eqn:Hrow.
  2:{ destruct (toggle_like_rollback u p d) as [e ->]; [now left |].
      cbn [snd]. repeat split; try tauto. intros row H. discriminate H. }
  destruct (decide ((u, p) ∈ likes d)) as [Hin | Hnot].
  2: destruct (N.le_gt_cases POSITIVE_INTEGER_MAX (likes_count row)) as [Hfull | Hroom].
  2:{ destruct (toggle_like_rollback u p d) as [e ->]; [right; right; eauto |].
      cbn [snd]. repeat split; try tauto.
      intros row0 [= <-]. exists row. rewrite Hrow. repeat split. }
  - destruct (N.eq_dec (likes_count row) 0%N) as [Hz | Hnz].
    + destruct (toggle_like_rollback u p d) as [e ->]; [right; left; eauto |].
      cbn [snd]. repeat split; try tauto.
      intros row0 [= <-]. exists row. rewrite Hrow. repeat split.
    + rewrite (toggle_like_delete u p d row) by assumption.
      cbn [snd follows posts likes]. split; [reflexivity |].
      split; [intros q Hq; now rewrite lookup_insert_ne |].
      split; [intros r Hr; set_solver |].
      intros row0 [= <-]. eexists. split; [apply lookup_insert_eq |]. repeat split.
  - rewrite (toggle_like_create u p d row) by assumption.
    cbn [snd follows posts likes]. split; [reflexivity |].
    split; [intros q Hq; now rewrite lookup_insert_ne |].
    split; [intros r Hr; set_solver |].
    intros row0 [= <-]. eexists. split; [apply lookup_insert_eq |]. repeat split.
Qed.

(** X18.  Two refusals of [toggle_like], each rolled back whole.  An
    unlike on a post whose counter is already zero is refused by the
    column's check and the like row stays.  A like on a post that is not
    in the table ends in [DoesNotExist] and the like row made on the way
    is not kept. *)
Theorem toggle_like_refusals :
  (forall (u p : N) (d : Database) (row : Post),
      (u, p) ∈ likes d ->
      posts d !! p = Some row ->
      likes_count row = 0%N ->
      exists name, toggle_like u p d = (Raise (IntegrityError name), d))
  /\
  (forall (u p : N) (d : Database),
      (u, p) ∉ likes d ->
      posts d !! p = None ->
      exists model, toggle_like u p d = (Raise (DoesNotExist model), d)).
Proof.
  split.
  - intros u p d row Hin Hrow Hz.
    unfold toggle_like, atomic, bind, like_get_or_create.
    destruct (decide ((u, p) ∈ likes d)) as [_ | Hnot]; [| contradiction].
    unfold like_delete, decrement_likes_count, set_likes. cbn [posts likes follows].
    rewrite Hrow. apply N.eqb_eq in Hz. rewrite Hz. eauto.
  - intros u p d Hnot Hnone.
    unfold toggle_like, atomic, bind, like_get_or_create.
    destruct (decide ((u, p) ∈ likes d)) as [Hin | _]; [contradiction |].
    unfold increment_likes_count, refreshed_likes_count, set_likes.
    cbn [posts likes follows]. rewrite Hnone. cbn [posts likes follows].
    rewrite Hnone. eauto.
Qed.

(** X19.  [get_mutual_followers] gives exactly the users that follow both,
    as [is_following] reads them, and it does not depend on the order of
    its two users. *)
Theorem mutual_followers_spec (users : gset N) (user1 user2 : N) (d : Database) :
  (forall x : N,
      x ∈ get_mutual_followers users user1 user2 d
      <-> x ∈ users /\ is_following x user1 d = true /\ is_following x user2 d = true)
  /\ get_mutual_followers users user1 user2 d = get_mutual_followers users user2 user1 d.
Proof.
  assert (forall (x y : N),
             x ∈ (set_map fst (referencing y (follows d)) : gset N) <-> (x, y) ∈ follows d)
    as Hfollowers.
  { intros x y. rewrite elem_of_map. split.
    - intros [[x' y'] [-> H]]. apply elem_of_filter in H. cbn in H.
      destruct H as [-> H]. exact H.
    - intros H. exists (x, y). split; [reflexivity |]. apply elem_of_filter. now split. }
  assert (forall (u1 u2 x : N),
             x ∈ get_mutual_followers users u1 u2 d
             <-> x ∈ users /\ (x, u1) ∈ follows d /\ (x, u2) ∈ follows d) as Hspec.
  { intros u1 u2 x. unfold get_mutual_followers. cbv zeta.
    rewrite elem_of_filter, elem_of_intersection, !Hfollowers. tauto. }
  split.
  - intros x. rewrite Hspec, !is_following_true. reflexivity.
  - apply set_eq. intros x. rewrite !Hspec. tauto.
Qed.

End ToggleRuns.

(** ** The follow action *)

Section FollowAction.
Import Py Db Idempotency FollowService Queries FollowViewSet.

(** X20.  The follow action for a username that is not in the users table
    raises [Http404] and changes nothing.  For a username that is there
    it never raises: on the caller's own name it answers 400 with
    [{"error": "Cannot follow yourself"}] and changes nothing; on any
    other name it answers 200 with the flipped [following] flag and the
    number of followers the target then has. *)
Theorem follow_action_answers
    (usernames : gmap string N) (caller : N) (username : string) (d : Database) :
  match usernames !! username with
  | None => toggle usernames caller username d = (Raise (OtherError "Http404"), d)
  | Some target =>
      exists response d',
        toggle usernames caller username d = (Return response, d')
        /\ if decide (caller = target)
           then status_code response = 400
                /\ resp_data response = PyDict [("error", PyStr "Cannot follow yourself")]
                /\ d' = d
           else status_code response = 200
                /\ resp_data response
                   = PyDict
                       [("following", PyBool (negb (is_following caller target d)));
                        ("followers_count",
                         PyInt (Z.of_N (N.of_nat (size (get_followers target d')))))]
                /\ is_following caller target d' = negb (is_following caller target d)
  end.
Proof.
  unfold toggle, get_user_or_404.
  destruct (usernames !! username) as [target |]; [| reflexivity].
  cbn [ret]. destruct (decide (caller = target)) as [-> | Hne].
  - unfold toggle_follow. rewrite N.eqb_refl. cbn [raise].
    do 2 eexists. split; [reflexivity |]. repeat split.
  - destruct (toggle_follow_outcome caller target d Hne) as [d' [Htoggle [Hflag _]]].
    rewrite Htoggle. exists (new_response
                               (PyDict
                                  [("following", PyBool (negb (is_following caller target d)));
                                   ("followers_count",
                                    PyInt (Z.of_N (N.of_nat (size (get_followers target d')))))])
                               200), d'.
    split; [reflexivity |]. repeat split. exact Hflag.
Qed.

End FollowAction.

(** ** The error envelope *)

Section ErrorEnvelope.
Import Py Idempotency Exceptions.

(** X21.  [_get_error_code] gives [UNKNOWN_ERROR] exactly for the status
    codes outside its nine entries, and two status codes among the nine
    never share a code. *)
Theorem error_code_spec :
  (forall s : Z,
      _get_error_code s = "UNKNOWN_ERROR"
      <-> ~ In s [400; 401; 403; 404; 405; 409; 422; 429; 500])
  /\ (forall s s' : Z,
        _get_error_code s = _get_error_code s' ->
        _get_error_code s <> "UNKNOWN_ERROR" ->
        s = s').
Proof.
  assert (forall s : Z,
             (In s [400; 401; 403; 404; 405; 409; 422; 429; 500]
              /\ _get_error_code s <> "UNKNOWN_ERROR")
             \/ (~ In s [400; 401; 403; 404; 405; 409; 422; 429; 500]
                 /\ _get_error_code s = "UNKNOWN_ERROR")) as Hcases.
  { intros s. unfold _get_error_code, error_codes. cbn [get_code In].
    repeat match goal with
           | |- context [?k =? s] =>
               destruct (Z.eqb_spec k s) as [<- | ?]; [left; split; [tauto | discriminate] |]
           end.
    right. split; [| reflexivity]. intros H.
    repeat (destruct H as [H | H]; [congruence |]). exact H. }
  split.
  - intros s. destruct (Hcases s) as [[Hin Hne] | [Hout He]]; split; tauto.
  - intros s s' Heq Hne.
    destruct (Hcases s) as [[Hin _] | [_ He]]; [| contradiction].
    destruct (Hcases s') as [[Hin' _] | [_ He']]; [| congruence].
    cbn [In] in Hin, Hin'.
    repeat (destruct Hin as [<- | Hin]);
      repeat (destruct Hin' as [<- | Hin']);
      try reflexivity; try contradiction; try (exfalso; discriminate Heq).
Qed.

Lemma first_field_message_skips (before rest : list (string * py_value)) :
  forallb (fun kv => negb (field_decides (snd kv))) before = true ->
  first_field_message (before ++ rest) = first_field_message rest.
Proof.
  induction before as [| [k v] before IH]; cbn [forallb app first_field_message snd];
    [reflexivity |].
  intros H. apply andb_true_iff in H as [Hv Hrest].
  destruct v as [| b | n | s | [| x l] | d]; cbn in Hv; try discriminate Hv; now apply IH.
Qed.

(** X22.  [_get_error_message] on a dictionary with no [detail] key reads
    the fields in order: the first field whose value is a non-empty list
    or a text gives [field: first item] or [field: text], whatever comes
    after it; when no field has such a value (all are empty lists, nested
    dictionaries, numbers, ...), the message is [An error occurred]. *)
Theorem error_message_of_fields :
  (forall (before after : list (string * py_value)) (key : string) (value : py_value),
      assoc "detail" (before ++ (key, value) :: after) = None ->
      forallb (fun kv => negb (field_decides (snd kv))) before = true ->
      field_decides value = true ->
      _get_error_message (PyDict (before ++ (key, value) :: after))
      = key ++ ": " ++ match value with
                       | PyList (x :: _) => str x
                       | PyStr s => s
                       | _ => ""
                       end)
  /\
  (forall fields : list (string * py_value),
      assoc "detail" fields = None ->
      forallb (fun kv => negb (field_decides (snd kv))) fields = true ->
      _get_error_message (PyDict fields) = "An error occurred").
Proof.
  split.
  - intros before after key value Hdetail Hbefore Hvalue.
    unfold _get_error_message. rewrite Hdetail.
    rewrite (first_field_message_skips before) by assumption.
    cbn [first_field_message].
    destruct value as [| b | n | s | [| x l] | d]; cbn in Hvalue; try discriminate Hvalue;
      reflexivity.
  - intros fields Hdetail Hfields. unfold _get_error_message. rewrite Hdetail.
    rewrite <- (app_nil_r fields).
    rewrite (first_field_message_skips fields []) by assumption. reflexivity.
Qed.

(** X23.  [custom_exception_handler] passes on [None] when the framework's
    handler gives none.  Otherwise it keeps the status and the headers and
    replaces the data by the envelope [{"error": {code, message,
    details}}], where [details] is always a dictionary that still holds
    the data the framework's handler gave: the data itself when it is a
    dictionary, and [{"detail": data}] when it is not. *)
Theorem handler_wraps_every_error {E C : Type}
    (exception_handler : E -> C -> option Response) (exc : E) (context : C) :
  match exception_handler exc context with
  | None => custom_exception_handler exception_handler exc context = None
  | Some r =>
      exists (r' : Response) (details : list (string * py_value)),
        custom_exception_handler exception_handler exc context = Some r'
        /\ status_code r' = status_code r
        /\ headers r' = headers r
        /\ resp_data r'
           = PyDict
               [("error",
                 PyDict
                   [("code", PyStr (_get_error_code (status_code r)));
                    ("message", PyStr (_get_error_message (resp_data r)));
                    ("details", PyDict details)])]
        /\ (resp_data r = PyDict details
            \/ ((forall d, resp_data r <> PyDict d)
                /\ details = [("detail", resp_data r)]))
  end.
Proof.
  unfold custom_exception_handler.
  destruct (exception_handler exc context) as [[data st hs] |]; [| reflexivity].
  cbn [resp_data status_code headers].
  destruct data as [| b | n | s | l | d].
  6: { eexists. exists d. split; [reflexivity |]. repeat split. now left. }
  all: eexists; eexists; (split; [reflexivity |]); repeat split;
    right; split; [intros d0 H0; discriminate H0 | reflexivity].
Qed.

End ErrorEnvelope.

(** ** Stripping and lowering text *)

Section Stripping.
Import Py Str Text.

Lemma lstrip_first (p : ascii -> bool) (s : string) (c : ascii) :
  first_char (lstrip p s) = Some c -> p c = false.
Proof.
  induction s as [| a s IH]; cbn [lstrip]; [discriminate |].
  destruct (p a) eqn:Hp; [exact IH |]. cbn. intros [= <-]. exact Hp.
Qed.

Lemma rstrip_first (p : ascii -> bool) (s : string) (c : ascii) :
  first_char (rstrip p s) = Some c -> first_char s = Some c.
Proof.
  destruct s as [| a s]; cbn [rstrip]; [discriminate |].
  destruct (rstrip p s); [destruct (p a); [discriminate |] |]; cbn; congruence.
Qed.

Lemma rstrip_last (p : ascii -> bool) (s : string) (c : ascii) :
  last_char (rstrip p s) = Some c -> p c = false.
Proof.
  induction s as [| a s IH]; cbn [rstrip]; [discriminate |].
  destruct (rstrip p s) as [| b t] eqn:Ht.
  - destruct (p a) eqn:Hp; [discriminate |]. cbn. intros [= <-]. exact Hp.
  - cbn [last_char]. exact IH.
Qed.

Lemma strip_chars_stripped (p : ascii -> bool) (s : string) :
  stripped p (strip_chars p s).
Proof.
  unfold stripped, strip_chars. split; intros c H.
  - apply rstrip_first in H. now apply lstrip_first in H.
  - now apply rstrip_last in H.
Qed.

(** What is stripped is white space of the set, and what is kept is the
    text between. *)
Lemma lstrip_decompose (p : ascii -> bool) (s : string) :
  exists l, s = l ++ lstrip p s /\ all_chars p l = true.
Proof.
  induction s as [| a s [l [IH Hl]]]; cbn [lstrip]; [now exists "" |].
  destruct (p a) eqn:Hp; [| now exists ""].
  exists (String a l). split.
  - rewrite string_append_cons. now rewrite <- IH.
  - cbn [all_chars]. now rewrite Hp, Hl.
Qed.

Lemma rstrip_decompose (p : ascii -> bool) (s : string) :
  exists r, s = rstrip p s ++ r /\ all_chars p r = true.
Proof.
  induction s as [| a s [r [IH Hr]]]; cbn [rstrip]; [now exists "" |].
  destruct (rstrip p s) as [| b t].
  - rewrite string_append_nil in IH. subst r. destruct (p a) eqn:Hp.
    + exists (String a s). split; [reflexivity |]. cbn [all_chars]. now rewrite Hp, Hr.
    + exists s. now split.
  - exists r. split; [| exact Hr]. rewrite string_append_cons. now rewrite <- IH.
Qed.

Lemma strip_chars_decompose (p : ascii -> bool) (s : string) :
  exists l r, s = l ++ strip_chars p s ++ r
              /\ all_chars p l = true /\ all_chars p r = true.
Proof.
  destruct (lstrip_decompose p s) as [l [Hl Hpl]].
  destruct (rstrip_decompose p (lstrip p s)) as [r [Hr Hpr]].
  exists l, r. unfold strip_chars. rewrite <- Hr. now repeat split.
Qed.


Lemma lstrip_all (p : ascii -> bool) (s : string) :
  lstrip p s = "" <-> all_chars p s = true.
Proof.
  induction s as [| a s IH]; cbn [lstrip all_chars]; [tauto |].
  destruct (p a); cbn [andb]; [exact IH |]. split; discriminate.
Qed.

Lemma rstrip_empty (p : ascii -> bool) (s : string) :
  rstrip p s = "" <-> all_chars p s = true.
Proof.
  induction s as [| a s IH]; cbn [rstrip all_chars]; [tauto |].
  destruct (rstrip p s) as [| b t].
  - destruct (p a); cbn [andb]; [| split; discriminate].
    split; intros _; [now apply IH | reflexivity].
  - split; [discriminate |]. intros H. apply andb_true_iff in H as [_ H].
    apply IH in H. discriminate H.
Qed.

Lemma strip_chars_empty (p : ascii -> bool) (s : string) :
  strip_chars p s = "" <-> all_chars p s = true.
Proof.
  unfold strip_chars. rewrite rstrip_empty. split.
  - intros H. apply lstrip_all.
    destruct (lstrip p s) as [| c t] eqn:Ht; [reflexivity |].
    assert (p c = false) as Hc by (apply (lstrip_first p s); now rewrite Ht).
    cbn [all_chars] in H. rewrite Hc in H. discriminate H.
  - intros H. apply lstrip_all in H. now rewrite H.
Qed.

Lemma lstrip_fixed (p : ascii -> bool) (s : string) :
  (forall c, first_char s = Some c -> p c = false) -> lstrip p s = s.
Proof.
  destruct s as [| a s]; [reflexivity |]. intros H. cbn [lstrip].
  now rewrite (H a eq_refl).
Qed.

Lemma rstrip_fixed (p : ascii -> bool) (s : string) :
  (forall c, last_char s = Some c -> p c = false) -> rstrip p s = s.
Proof.
  induction s as [| a s IH]; [reflexivity |]. intros H. cbn [rstrip].
  destruct s as [| b t].
  - cbn [rstrip]. now rewrite (H a eq_refl).
  - rewrite IH by (intros c Hc; apply H; exact Hc). reflexivity.
Qed.

Lemma strip_chars_fixed (p : ascii -> bool) (s : string) :
  stripped p s -> strip_chars p s = s.
Proof.
  intros [Hfirst Hlast]. unfold strip_chars.
  rewrite (lstrip_fixed p s Hfirst). now apply rstrip_fixed.
Qed.






End Stripping.

(** ** Creating and updating a post *)

Section PostContent.
Import Py Str Text PostCreateSerializer PostEdits.

(** X24.  [validate_content] refuses exactly the values made of white
    space only (the empty text among them).  A value it accepts comes back
    stripped: the text returned is [value.strip()], that is, the value is
    the text returned with white space only before it and after it; the
    text returned is not empty, has no white space at either end, and is
    accepted again unchanged. *)
Theorem validate_content_spec :
  (forall value t : string,
      validate_content value = Valid t ->
      t = strip value
      /\ (exists l r : string,
            value = l ++ t ++ r
            /\ all_chars is_space l = true /\ all_chars is_space r = true)
      /\ t <> "" /\ stripped is_space t /\ validate_content t = Valid t)
  /\ (forall value : string,
        (exists message, validate_content value = Invalid message)
        <-> all_chars is_space value = true).
Proof.
  split.
  - intros value t. unfold validate_content.
    destruct (String.eqb_spec value ""); cbn [orb]; [discriminate |].
    destruct (String.eqb_spec (strip value) "") as [| Hne]; [discriminate |].
    intros [= <-].
    assert (stripped is_space (strip value)) as Hs by apply strip_chars_stripped.
    assert (strip (strip value) = strip value) as Hfix by now apply strip_chars_fixed.
    split; [reflexivity |]. split; [apply strip_chars_decompose |].
    split; [exact Hne |]. split; [exact Hs |].
    rewrite Hfix.
    destruct (String.eqb_spec (strip value) ""); [contradiction | reflexivity].
  - intros value. unfold validate_content. split.
    + intros [message H].
      destruct (String.eqb_spec value "") as [-> | _]; [reflexivity |].
      destruct (String.eqb_spec (strip value) "") as [He | _]; [| discriminate H].
      now apply strip_chars_empty in He.
    + intros H. apply (strip_chars_empty is_space) in H. fold (strip value) in H.
      rewrite H, String.eqb_refl, orb_true_r. eauto.
Qed.


Lemma assoc_dict_set_eq (k : string) (v : py_value) (d : list (string * py_value)) :
  assoc k (dict_set k v d) = Some v.
Proof.
  induction d as [| [k' v'] d IH]; cbn [dict_set assoc].
  - now rewrite String.eqb_refl.
  - destruct (String.eqb k' k) eqn:E; cbn [assoc]; rewrite E; [reflexivity | exact IH].
Qed.

Lemma assoc_dict_set_ne (k k' : string) (v : py_value) (d : list (string * py_value)) :
  k <> k' -> assoc k' (dict_set k v d) = assoc k' d.
Proof.
  intros Hne. induction d as [| [k0 v0] d IH]; cbn [dict_set assoc].
  - apply String.eqb_neq in Hne. now rewrite Hne.
  - destruct (String.eqb_spec k0 k) as [-> | Hk]; cbn [assoc].
    + apply String.eqb_neq in Hne. now rewrite Hne.
    + now rewrite IH.
Qed.

Lemma last_n_length {A : Type} (n : nat) (l : list A) : (List.length (last_n n l) <= n)%nat.
Proof. unfold last_n. rewrite length_skipn. lia. Qed.

Lemma last_n_snoc {A : Type} (n : nat) (l : list A) (x : A) :
  (0 < n)%nat -> last (last_n n (l ++ [x])) = Some x.
Proof.
  intros Hn. unfold last_n. rewrite length_app. cbn [List.length].
  rewrite skipn_app.
  replace (List.length l + 1 - n - List.length l)%nat with 0%nat by lia.
  cbn [skipn]. apply last_snoc.
Qed.

(** What [update_post] does when the content differs and the metadata is
    well formed. *)
Lemma update_post_changed (now : string) (post : PostRow) (content : string) :
  content <> row_content post ->
  well_formed_metadata (row_metadata post) = true ->
  exists items history,
    (if truthy (row_metadata post) then row_metadata post else PyDict []) = PyDict items
    /\ default (PyList []) (assoc "edit_history" items) = PyList history
    /\ update_post now post content
       = Return
           (mkPostRow (row_user post) (strip content)
              (PyDict
                 (dict_set "edit_history"
                    (PyList
                       (last_n 5
                          (history ++
                           [PyDict
                              [("content", PyStr (row_content post));
                               ("edited_at", match row_updated_at post with
                                             | Some t => PyStr t
                                             | None => PyNone
                                             end)]])))
                    (dict_set "edited" (PyBool true) items)))
              (Some now)).
Proof.
  intros Hne Hwf. unfold update_post, well_formed_metadata in *.
  apply String.eqb_neq in Hne. rewrite Hne. cbn [negb].
  destruct (truthy (row_metadata post)).
  - destruct (row_metadata post) as [| | | | | items]; try discriminate Hwf.
    exists items. rewrite (assoc_dict_set_ne "edited" "edit_history") by discriminate.
    destruct (assoc "edit_history" items) as [[| | | | history |] |]; try discriminate Hwf.
    + exists history. repeat split.
    + exists []. repeat split.
  - exists [], []. repeat split.
Qed.

(** It returns, with changed content, only on well-formed metadata. *)
Lemma update_post_returns_well_formed
    (now : string) (post post' : PostRow) (content : string) :
  content <> row_content post ->
  update_post now post content = Return post' ->
  well_formed_metadata (row_metadata post) = true.
Proof.
  intros Hne Hret. unfold update_post, well_formed_metadata in *.
  apply String.eqb_neq in Hne. rewrite Hne in Hret. cbn [negb] in Hret.
  destruct (truthy (row_metadata post)); [| reflexivity].
  destruct (row_metadata post) as [| | | | | items]; try discriminate Hret.
  rewrite (assoc_dict_set_ne "edited" "edit_history") in Hret by discriminate.
  destruct (assoc "edit_history" items) as [[| | | | history |] |];
    try discriminate Hret; reflexivity.
Qed.

(** X26.  When [update_post] saves new content, the metadata it saves has
    [edited] set, and an [edit_history] of at most five entries whose last
    entry holds the content and the [updated_at] the post had before; the
    content saved is the new content stripped, [updated_at] is the time of
    the save, and the author is kept. *)
Theorem update_post_keeps_last_five
    (now : string) (post post' : PostRow) (content : string) :
  content <> row_content post ->
  update_post now post content = Return post' ->
  exists items history,
    row_metadata post' = PyDict items
    /\ assoc "edited" items = Some (PyBool true)
    /\ assoc "edit_history" items = Some (PyList history)
    /\ (List.length history <= 5)%nat
    /\ last history
       = Some (PyDict
                 [("content", PyStr (row_content post));
                  ("edited_at", match row_updated_at post with
                                | Some t => PyStr t
                                | None => PyNone
                                end)])
    /\ row_content post' = strip content
    /\ row_updated_at post' = Some now
    /\ row_user post' = row_user post.
Proof.
  intros Hne Hret.
  pose proof (update_post_returns_well_formed now post post' content Hne Hret) as Hwf.
  destruct (update_post_changed now post content Hne Hwf) as [items [history [_ [_ Hsave]]]].
  rewrite Hsave in Hret. injection Hret as <-. cbn [row_metadata row_content row_updated_at row_user].
  do 2 eexists. split; [reflexivity |].
  split; [rewrite (assoc_dict_set_ne "edit_history" "edited") by discriminate;
          apply assoc_dict_set_eq |].
  split; [apply assoc_dict_set_eq |].
  split; [apply last_n_length |].
  split; [apply last_n_snoc; lia |]. repeat split.
Qed.

(** X27.  [update_post] compares the new content before stripping it.  New
    content that differs from the stored content only by white space
    around it is saved as an edit: the stored content stays what it was,
    yet [edited] is set and the history gets an entry for it. *)
Theorem update_post_records_blank_edit
    (now : string) (post post' : PostRow) (content : string) :
  content <> row_content post ->
  strip content = row_content post ->
  update_post now post content = Return post' ->
  row_content post' = row_content post
  /\ exists items history,
       row_metadata post' = PyDict items
       /\ assoc "edited" items = Some (PyBool true)
       /\ assoc "edit_history" items = Some (PyList history)
       /\ exists edited_at,
            last history
            = Some (PyDict [("content", PyStr (row_content post')); ("edited_at", edited_at)]).
Proof.
  intros Hne Hstrip Hret.
  pose proof (update_post_returns_well_formed now post post' content Hne Hret) as Hwf.
  destruct (update_post_changed now post content Hne Hwf) as [items [history [_ [_ Hsave]]]].
  rewrite Hsave in Hret. injection Hret as <-.
  cbn [row_metadata row_content]. split; [exact Hstrip |].
  do 2 eexists. split; [reflexivity |].
  split; [rewrite (assoc_dict_set_ne "edit_history" "edited") by discriminate;
          apply assoc_dict_set_eq |].
  split; [apply assoc_dict_set_eq |].
  eexists. rewrite Hstrip. apply last_n_snoc. lia.
Qed.

(** X28.  [update_post] returns exactly when the content is unchanged, in
    which case the post is returned as it is, or the metadata is well
    formed: a false value, or a dictionary whose [edit_history] is absent
    or a list.  On any other metadata it raises and nothing is saved. *)
Theorem update_post_returns_iff (now : string) (post : PostRow) (content : string) :
  (content = row_content post -> update_post now post content = Return post)
  /\ ((exists post', update_post now post content = Return post')
      <-> content = row_content post \/ well_formed_metadata (row_metadata post) = true).
Proof.
  assert (content = row_content post -> update_post now post content = Return post) as Hsame.
  { intros ->. unfold update_post. now rewrite String.eqb_refl. }
  split; [exact Hsame |]. split.
  - intros [post' Hret].
    destruct (String.eqb_spec content (row_content post)) as [| Hne]; [now left |]. right.
    exact (update_post_returns_well_formed now post post' content Hne Hret).
  - intros [Heq | Hwf]; [eauto |].
    destruct (String.eqb_spec content (row_content post)) as [Heq | Hne]; [eauto |].
    destruct (update_post_changed now post content Hne Hwf) as [items [history [_ [_ Hsave]]]].
    eauto.
Qed.

(** X29.  [update_post] keeps every other key of the metadata: whatever
    it saves, a key other than [edited] and [edit_history] reads as it
    did in the metadata of the post loaded. *)
Theorem update_post_keeps_other_metadata
    (now : string) (post post' : PostRow) (content : string)
    (items : list (string * py_value)) :
  row_metadata post = PyDict items ->
  update_post now post content = Return post' ->
  exists items',
    row_metadata post' = PyDict items'
    /\ forall k : string,
         k <> "edited" -> k <> "edit_history" -> assoc k items' = assoc k items.
Proof.
  intros Hmeta Hret.
  destruct (String.eqb_spec content (row_content post)) as [Heq | Hne].
  - unfold update_post in Hret. rewrite Heq, String.eqb_refl in Hret.
    injection Hret as <-. exists items. now split.
  - pose proof (update_post_returns_well_formed now post post' content Hne Hret) as Hwf.
    destruct (update_post_changed now post content Hne Hwf)
      as [items0 [history [Hitems [_ Hsave]]]].
    rewrite Hsave in Hret. injection Hret as <-. cbn [row_metadata].
    eexists. split; [reflexivity |]. intros k Hk Hk'.
    rewrite !assoc_dict_set_ne by congruence.
    rewrite Hmeta in Hitems. destruct (truthy (PyDict items)) eqn:Ht.
    + now injection Hitems as <-.
    + injection Hitems as <-. destruct items; [reflexivity | discriminate Ht].
Qed.

End PostContent.

(** * The further properties on the samples *)

Section GatewaySamples.
Import Py Idempotency MiddlewareNames Examples Samples.

(** X1 on the sample: the first [POST] with key [k1]. *)
Lemma first_execution_is_recorded_witness :
  fst (wrapper create_post (post_request (Some "k1") "hello") empty_world)
  = Return (new_response (PyDict [("id", PyInt 0); ("content", PyStr "hello")]) 201)
  /\ db world_after_hello = ["hello"]
  /\ get_idempotent_response "k1" (cache world_after_hello)
     = Some (CachedResponse (PyDict [("id", PyInt 0); ("content", PyStr "hello")]) 201)
  /\ get_stored_fingerprint "k1" (cache world_after_hello)
     = Some (CachedStr (generate_request_fingerprint (post_request (Some "k1") "hello"))).
Proof.
  apply (first_execution_is_recorded create_post (post_request (Some "k1") "hello")
           empty_world "k1"
           (new_response (PyDict [("id", PyInt 0); ("content", PyStr "hello")]) 201)
           (mkWorld ∅ ["hello"])).
  - reflexivity.
  - discriminate.
  - reflexivity.
  - reflexivity.
  - cbn [status_code new_response]. lia.
Defined.

(** X2 on the sample: the same [POST] again, through a view that would
    raise. *)
Lemma retry_is_replayed_witness :
  exists replay,
    wrapper broken_view (post_request (Some "k1") "hello") world_after_hello
    = (Return replay, world_after_hello)
    /\ resp_data replay = PyDict [("id", PyInt 0); ("content", PyStr "hello")]
    /\ status_code replay = 201
    /\ headers replay !! "X-Idempotent-Replayed" = Some "true".
Proof.
  apply (retry_is_replayed create_post broken_view (post_request (Some "k1") "hello")
           empty_world "k1"
           (new_response (PyDict [("id", PyInt 0); ("content", PyStr "hello")]) 201)
           (mkWorld ∅ ["hello"])).
  - reflexivity.
  - discriminate.
  - reflexivity.
  - reflexivity.
  - cbn [status_code new_response]. lia.
Defined.

(** X3 on the sample: key [k1] again with another body. *)
Lemma retry_with_other_body_is_rejected_witness :
  wrapper broken_view (post_request (Some "k1") "different") world_after_hello
  = (Return conflict_response, world_after_hello)
  /\ status_code conflict_response = 409.
Proof.
  apply (retry_with_other_body_is_rejected create_post broken_view
           (post_request (Some "k1") "hello") (post_request (Some "k1") "different")
           empty_world "k1"
           (new_response (PyDict [("id", PyInt 0); ("content", PyStr "hello")]) 201)
           (mkWorld ∅ ["hello"])).
  - reflexivity.
  - reflexivity.
  - discriminate.
  - reflexivity.
  - reflexivity.
  - cbn [status_code new_response]. lia.
  - rewrite hello_fingerprint, different_fingerprint. discriminate.
Defined.

(** X4 on the sample: a first [POST] through a view that raises. *)
Lemma view_exception_passes_through_witness :
  wrapper broken_view (post_request (Some "k1") "hello") empty_world
  = (Raise (OtherError "boom"), empty_world).
Proof.
  apply (view_exception_passes_through broken_view (post_request (Some "k1") "hello")
           empty_world "k1").
  - reflexivity.
  - discriminate.
  - reflexivity.
  - reflexivity.
Defined.

(** X5 on the sample: key [k1] again, through two views. *)
Lemma hit_never_runs_view_witness :
  wrapper create_post (post_request (Some "k1") "hello") world_after_hello
  = wrapper broken_view (post_request (Some "k1") "hello") world_after_hello
  /\ snd (wrapper create_post (post_request (Some "k1") "hello") world_after_hello)
     = world_after_hello.
Proof.
  apply (hit_never_runs_view create_post broken_view (post_request (Some "k1") "hello")
           world_after_hello "k1").
  - reflexivity.
  - discriminate.
  - vm_compute. reflexivity.
Defined.

(** X6 on the sample: the first [POST] with key [k1]. *)
Lemma miss_writes_only_its_two_keys_witness :
  db world_after_hello
  = db (snd (create_post (post_request (Some "k1") "hello") empty_world))
  /\ forall k : string,
       k <> get_cache_key "k1" ->
       k <> get_fingerprint_key "k1" ->
       cache_get k (cache world_after_hello)
       = cache_get k (cache (snd (create_post (post_request (Some "k1") "hello")
                                    empty_world))).
Proof.
  apply (miss_writes_only_its_two_keys create_post (post_request (Some "k1") "hello")
           empty_world "k1").
  - reflexivity.
  - discriminate.
  - reflexivity.
Defined.

(** X7 on the sample: storing under [a] and reading under [b]. *)
Lemma tokens_do_not_interfere_witness :
  get_idempotent_response "b" (store_idempotent_response "a" "f" PyNone 200 ∅)
  = get_idempotent_response "b" ∅
  /\ get_stored_fingerprint "b" (store_idempotent_response "a" "f" PyNone 200 ∅)
     = get_stored_fingerprint "b" ∅.
Proof.
  apply (tokens_do_not_interfere "a" "b" "f" PyNone 200 ∅); discriminate.
Defined.


(** X9 on the sample: key [k1] again, the body now the text
    [{'content': 'hello'}]. *)
Lemma text_body_retry_is_replayed_witness :
  wrapper broken_view text_request world_after_hello
  = (Return (set_header "X-Idempotent-Replayed" "true"
               (new_response (PyDict [("id", PyInt 0); ("content", PyStr "hello")]) 201)),
     world_after_hello).
Proof.
  apply (text_body_retry_is_replayed create_post broken_view
           (post_request (Some "k1") "hello") text_request empty_world "k1"
           (new_response (PyDict [("id", PyInt 0); ("content", PyStr "hello")]) 201)
           (mkWorld ∅ ["hello"])).
  - reflexivity.
  - reflexivity.
  - discriminate.
  - reflexivity.
  - reflexivity.
  - cbn [status_code new_response]. lia.
  - reflexivity.
  - reflexivity.
  - reflexivity.
  - reflexivity.
Defined.

(** X11 on the sample: a first [POST] with key [k1] through the
    middleware. *)
Lemma middleware_records_without_fingerprint_witness :
  fst (middleware_call toy_json_loads toy_JsonResponse toy_get_response
         (post_request (Some "k1") "hello") empty_world)
  = Return (mkHttpResponse (Some "[1]") 201 ∅)
  /\ db (snd (middleware_call toy_json_loads toy_JsonResponse toy_get_response
                (post_request (Some "k1") "hello") empty_world))
     = db (mkWorld ∅ ["x"])
  /\ get_idempotent_response "k1"
       (cache (snd (middleware_call toy_json_loads toy_JsonResponse toy_get_response
                      (post_request (Some "k1") "hello") empty_world)))
     = Some (CachedResponse (PyList [PyInt 1]) 201)
  /\ get_stored_fingerprint "k1"
       (cache (snd (middleware_call toy_json_loads toy_JsonResponse toy_get_response
                      (post_request (Some "k1") "hello") empty_world)))
     = Some (CachedStr "")
  /\ truthy_opt
       (get_stored_fingerprint "k1"
          (cache (snd (middleware_call toy_json_loads toy_JsonResponse toy_get_response
                         (post_request (Some "k1") "hello") empty_world))))
     = false.
Proof.
  apply (middleware_records_without_fingerprint toy_json_loads toy_JsonResponse
           toy_get_response (post_request (Some "k1") "hello") empty_world "k1"
           (mkHttpResponse (Some "[1]") 201 ∅) (mkWorld ∅ ["x"]) "[1]" (PyList [PyInt 1])).
  - reflexivity.
  - reflexivity.
  - discriminate.
  - reflexivity.
  - reflexivity.
  - cbn [http_status_code]. lia.
  - reflexivity.
  - reflexivity.
Defined.

(** X12 on the sample: a [GET] with a token. *)
Lemma middleware_passes_other_requests_witness :
  middleware_call toy_json_loads toy_JsonResponse toy_get_response get_request empty_world
  = toy_get_response get_request empty_world.
Proof.
  apply (middleware_passes_other_requests toy_json_loads toy_JsonResponse
           toy_get_response get_request empty_world).
  left. reflexivity.
Defined.

(** X13 on the sample: after the middleware's store for key [k1], a
    [POST] with another body. *)
Lemma middleware_replays_any_request_witness :
  middleware_call toy_json_loads toy_JsonResponse toy_get_response
    (post_request (Some "k1") "hello") world_after_middleware
  = middleware_call toy_json_loads toy_JsonResponse page_get_response
      (post_request (Some "k1") "different") world_after_middleware
  /\ snd (middleware_call toy_json_loads toy_JsonResponse toy_get_response
            (post_request (Some "k1") "hello") world_after_middleware)
     = world_after_middleware.
Proof.
  apply (middleware_replays_any_request toy_json_loads toy_JsonResponse
           toy_get_response page_get_response
           (post_request (Some "k1") "hello") (post_request (Some "k1") "different")
           world_after_middleware "k1").
  - reflexivity.
  - reflexivity.
  - reflexivity.
  - reflexivity.
  - discriminate.
  - vm_compute. reflexivity.
Defined.

(** X14 on the samples: a first [POST] answered with a page, and one
    answered with a byte that is not UTF-8. *)
Lemma middleware_skips_other_answers_witness :
  middleware_call toy_json_loads toy_JsonResponse page_get_response
    (post_request (Some "k1") "hello") empty_world
  = (Return (mkHttpResponse (Some "<html>") 201 ∅), mkWorld ∅ ["x"])
  /\ middleware_call toy_json_loads toy_JsonResponse binary_get_response
       (post_request (Some "k1") "hello") empty_world
     = (Raise (UnicodeDecodeError "invalid start byte"), mkWorld ∅ ["x"]).
Proof.
  split.
  - apply (proj1 (proj2 (middleware_skips_other_answers toy_json_loads toy_JsonResponse
                           page_get_response (post_request (Some "k1") "hello")
                           empty_world "k1" eq_refl eq_refl ltac:(discriminate) eq_refl))).
    + reflexivity.
    + right. right. exists "<html>", (JSONDecodeError "Expecting value"). now repeat split.
  - apply (proj2 (proj2 (middleware_skips_other_answers toy_json_loads toy_JsonResponse
                           binary_get_response (post_request (Some "k1") "hello")
                           empty_world "k1" eq_refl eq_refl ltac:(discriminate) eq_refl))
             (mkHttpResponse (Some (String (ascii_of_N 255) "")) 201 ∅) (mkWorld ∅ ["x"])
             (String (ascii_of_N 255) "")).
    + reflexivity.
    + cbn [http_status_code]. lia.
    + reflexivity.
    + reflexivity.
    + reflexivity.
Defined.

End GatewaySamples.

Section ServiceSamples.
Import Py Db PostService FollowService Queries Examples Samples.

(** X15 on the sample: user 1 follows user 2. *)
Lemma toggle_follow_flips_relation_witness :
  exists d',
    toggle_follow 1 2 one_post
    = (Return (negb (is_following 1 2 one_post),
               N.of_nat (size (get_followers 2 d'))), d')
    /\ is_following 1 2 d' = negb (is_following 1 2 one_post)
    /\ posts d' = posts one_post
    /\ likes d' = likes one_post
    /\ forall x y : N, (x, y) <> (1%N, 2%N) -> is_following x y d' = is_following x y one_post.
Proof.
  apply (toggle_follow_flips_relation 1 2 one_post). discriminate.
Defined.

(** X18 on the samples: an unlike at counter zero, and a like of a post
    that is not there. *)
Lemma toggle_like_refusals_witness :
  (exists name, toggle_like 2 7 stale_like = (Raise (IntegrityError name), stale_like))
  /\ (exists model, toggle_like 2 8 one_post = (Raise (DoesNotExist model), one_post)).
Proof.
  split.
  - apply (proj1 toggle_like_refusals 2%N 7%N stale_like (mkPost 1 "hi" 0 0)).
    + unfold stale_like. cbn [likes]. now apply elem_of_singleton_2.
    + vm_compute. reflexivity.
    + reflexivity.
  - apply (proj2 toggle_like_refusals 2%N 8%N one_post).
    + apply not_elem_of_empty.
    + vm_compute. reflexivity.
Defined.

End ServiceSamples.

Section EnvelopeSamples.
Import Py Exceptions.

(** X22 on the samples: a field with an empty list before the field that
    decides, and a dictionary with no field that decides. *)
Lemma error_message_of_fields_witness :
  _get_error_message
    (PyDict [("title", PyList []);
             ("content", PyList [PyStr "This field may not be blank."])])
  = "content: This field may not be blank."
  /\ _get_error_message (PyDict [("title", PyList [])]) = "An error occurred".
Proof.
  split.
  - apply (proj1 error_message_of_fields [("title", PyList [])] [] "content"
             (PyList [PyStr "This field may not be blank."])); reflexivity.
  - apply (proj2 error_message_of_fields [("title", PyList [])]); reflexivity.
Defined.

End EnvelopeSamples.

Section PostSamples.
Import Py Str Text PostCreateSerializer PostEdits Samples.

(** X24 on the sample: content with spaces around it. *)
Lemma validate_content_spec_witness :
  ("hi" = strip "  hi  "
   /\ (exists l r : string,
         "  hi  " = l ++ "hi" ++ r
         /\ all_chars is_space l = true /\ all_chars is_space r = true)
   /\ "hi" <> "" /\ stripped is_space "hi" /\ validate_content "hi" = Valid "hi")
  /\ ((exists message, validate_content "   " = Invalid message)
      <-> all_chars is_space "   " = true).
Proof.
  split.
  - apply (proj1 validate_content_spec "  hi  " "hi"). reflexivity.
  - apply (proj2 validate_content_spec "   ").
Defined.

(** X26 on the sample: a sixth edit. *)
Lemma update_post_keeps_last_five_witness :
  exists post' items history,
    update_post "2024-01-02T00:00:00" busy_post " v7 " = Return post'
    /\ row_metadata post' = PyDict items
    /\ assoc "edited" items = Some (PyBool true)
    /\ assoc "edit_history" items = Some (PyList history)
    /\ (List.length history <= 5)%nat
    /\ last history
       = Some (PyDict [("content", PyStr "v6"); ("edited_at", PyStr "2024-01-01T00:00:00")])
    /\ row_content post' = "v7"
    /\ row_updated_at post' = Some "2024-01-02T00:00:00"
    /\ row_user post' = 1%N.
Proof.
  eexists.
  assert (update_post "2024-01-02T00:00:00" busy_post " v7 " = Return _) as Hret
    by reflexivity.
  destruct (update_post_keeps_last_five "2024-01-02T00:00:00" busy_post _ " v7 "
              ltac:(discriminate) Hret) as (items & history & H).
  exists items, history. split; [exact Hret | exact H].
Defined.

(** X27 on the sample: the stored content sent again with spaces around
    it. *)
Lemma update_post_records_blank_edit_witness :
  exists post',
    update_post "2024-01-02T00:00:00" busy_post " v6 " = Return post'
    /\ row_content post' = row_content busy_post
    /\ exists items history,
         row_metadata post' = PyDict items
         /\ assoc "edited" items = Some (PyBool true)
         /\ assoc "edit_history" items = Some (PyList history)
         /\ exists edited_at,
              last history
              = Some (PyDict [("content", PyStr (row_content post'));
                              ("edited_at", edited_at)]).
Proof.
  eexists.
  assert (update_post "2024-01-02T00:00:00" busy_post " v6 " = Return _) as Hret
    by reflexivity.
  split; [exact Hret |].
  apply (update_post_records_blank_edit "2024-01-02T00:00:00" busy_post _ " v6 ");
    [discriminate | reflexivity | exact Hret].
Defined.

(** X29 on the sample: the hashtags of the post stay. *)
Lemma update_post_keeps_other_metadata_witness :
  exists post' items',
    update_post "2024-01-02T00:00:00" busy_post " v7 " = Return post'
    /\ row_metadata post' = PyDict items'
    /\ forall k : string,
         k <> "edited" -> k <> "edit_history" -> assoc k items' = assoc k busy_items.
Proof.
  eexists.
  assert (update_post "2024-01-02T00:00:00" busy_post " v7 " = Return _) as Hret
    by reflexivity.
  destruct (update_post_keeps_other_metadata "2024-01-02T00:00:00" busy_post _ " v7 "
              busy_items eq_refl Hret) as (items' & H).
  exists items'. split; [exact Hret | exact H].
Defined.

End PostSamples.
